(** * Web Canvas Browser: page items, refresh timers, resize grips, settings dialog

    A shallow embedding of [src/main.py].  The Python classes become records,
    their methods become functions that pass the object state explicitly, and
    the parts of Qt the program calls ([QTimer], [QSpinBox], [QRect],
    [QGraphicsScene], the [QObject] parent relation) are modelled by the
    behaviour their documentation gives, in [Module Qt]. *)

From Stdlib Require Import ZArith String Bool Lia.
From stdpp Require Import base option list.

Open Scope Z_scope.

(** ** Python exceptions and stateful methods *)

Inductive exn := OverflowError | AttributeError.

Inductive outcome (A : Type) :=
| Returns (a : A)
| Raises (e : exn).
Arguments Returns {A} a.
Arguments Raises {A} e.

(** A method on an object of state [S]: it ends by returning or by raising,
    and in both cases the mutations made so far stay. *)
Definition Py (S A : Type) : Type := S -> outcome A * S.

Definition ret {S A} (a : A) : Py S A := fun s => (Returns a, s).
Definition raise {S A} (e : exn) : Py S A := fun s => (Raises e, s).
Definition bind {S A B} (c : Py S A) (k : A -> Py S B) : Py S B :=
  fun s =>
    match c s with
    | (Returns a, s') => k a s'
    | (Raises e, s') => (Raises e, s')
    end.
Definition modify {S} (f : S -> S) : Py S unit := fun s => (Returns tt, f s).

#[export] Instance Py_ret {S} : MRet (Py S) := fun A => @ret S A.
#[export] Instance Py_bind {S} : MBind (Py S) := fun A B k c => bind c k.

(** ** The Qt classes the program uses *)

Module Qt.

(** PyQt5 converts a Python [int] argument to a C++ [int] and raises
    [OverflowError] when it does not fit. *)
Definition INT_MIN : Z := -2147483648.
Definition INT_MAX : Z := 2147483647.
Definition fits_int (z : Z) : bool := (INT_MIN <=? z) && (z <=? INT_MAX).

(** *** QTimer: a repeating timer (single-shot is off by default).
    [Active e] is a running timer that last started or timed out [e]
    milliseconds ago. *)
Inductive timer_state := Inactive | Active (elapsed : Z).

Record QTimer := { state : timer_state; interval : Z }.

Definition QTimer_new : QTimer := {| state := Inactive; interval := 0 |}.

Definition isActive (t : QTimer) : bool :=
  match state t with Active _ => true | Inactive => false end.

Definition stop : Py QTimer unit :=
  modify (fun t => {| state := Inactive; interval := interval t |}).

(** [start(msec)] sets the interval and starts the timer, or restarts it
    when it is running. *)
Definition start (msec : Z) : Py QTimer unit :=
  if fits_int msec
  then modify (fun _ => {| state := Active 0; interval := msec |})
  else raise OverflowError.

(** The [timeout] signals of the next [ms] milliseconds of an ideal clock,
    and the timer afterwards.  The program only starts timers with a
    positive interval; the busy firing of a zero interval is not modelled. *)
Definition advance (ms : Z) (t : QTimer) : nat * QTimer :=
  match state t with
  | Active e =>
      if 0 <? interval t
      then (Z.to_nat ((e + ms) / interval t),
            {| state := Active ((e + ms) mod interval t);
               interval := interval t |})
      else (0%nat, t)
  | Inactive => (0%nat, t)
  end.

(** *** QSpinBox: a value kept inside [minimum, maximum]. *)
Record QSpinBox := { minimum : Z; maximum : Z; value : Z }.

Definition QSpinBox_new : QSpinBox :=
  {| minimum := 0; maximum := 99; value := 0 |}.

Definition bound (lo hi v : Z) : Z := Z.max lo (Z.min hi v).

Definition setRange (lo hi : Z) (sb : QSpinBox) : QSpinBox :=
  let hi' := Z.max lo hi in
  {| minimum := lo; maximum := hi'; value := bound lo hi' (value sb) |}.

Definition setValue (v : Z) : Py QSpinBox unit :=
  if fits_int v
  then modify (fun sb =>
         {| minimum := minimum sb; maximum := maximum sb;
            value := bound (minimum sb) (maximum sb) v |})
  else raise OverflowError.

(** *** QPoint and QRect.  A [QRect] stores its two corners; the rectangle
    [(x, y, w, h)] has its bottom-right corner at [(x + w - 1, y + h - 1)]. *)
Definition QPoint : Type := Z * Z.

Record QRect := { x1 : Z; y1 : Z; x2 : Z; y2 : Z }.

Definition QRect_xywh (x y w h : Z) : QRect :=
  {| x1 := x; y1 := y; x2 := x + w - 1; y2 := y + h - 1 |}.

Definition topLeft (r : QRect) : QPoint := (x1 r, y1 r).
Definition topRight (r : QRect) : QPoint := (x2 r, y1 r).
Definition bottomLeft (r : QRect) : QPoint := (x1 r, y2 r).
Definition bottomRight (r : QRect) : QPoint := (x2 r, y2 r).

Definition setTopLeft (p : QPoint) (r : QRect) : QRect :=
  {| x1 := fst p; y1 := snd p; x2 := x2 r; y2 := y2 r |}.
Definition setTopRight (p : QPoint) (r : QRect) : QRect :=
  {| x1 := x1 r; y1 := snd p; x2 := fst p; y2 := y2 r |}.
Definition setBottomLeft (p : QPoint) (r : QRect) : QRect :=
  {| x1 := fst p; y1 := y1 r; x2 := x2 r; y2 := snd p |}.
Definition setBottomRight (p : QPoint) (r : QRect) : QRect :=
  {| x1 := x1 r; y1 := y1 r; x2 := fst p; y2 := snd p |}.

Inductive Corner :=
  TopLeftCorner | TopRightCorner | BottomLeftCorner | BottomRightCorner.

(** Mouse buttons are a bit mask. *)
Definition NoButton : Z := 0.
Definition LeftButton : Z := 1.
Definition RightButton : Z := 2.

Record QMouseEvent := { buttons : Z; globalPos : QPoint }.

(** *** QWebEngineView: the string the view was asked to load and how often
    it was asked to reload.  What [QUrl] makes of the string and where the
    view itself navigates are not modelled. *)
Record QWebEngineView := { page : option string; reloads : nat }.

Definition QWebEngineView_new : QWebEngineView :=
  {| page := None; reloads := 0 |}.
Definition load (u : string) (v : QWebEngineView) : QWebEngineView :=
  {| page := Some u; reloads := reloads v |}.
Definition reload (v : QWebEngineView) : QWebEngineView :=
  {| page := page v; reloads := S (reloads v) |}.

Inductive DialogCode := Rejected | Accepted.

End Qt.
Import Qt.

(** ** WebPageItem *)

(** The widgets a page item creates, by object identity: the container and
    the four grips. *)
Inductive widget := Container | Grip (c : Corner).

#[export] Instance Corner_eq_dec : EqDecision Corner.
Proof. solve_decision. Defined.
#[export] Instance widget_eq_dec : EqDecision widget.
Proof. solve_decision. Defined.

Record SizeGrip := { corner : Corner }.

Record WebPageItem := {
  url : string;
  refresh_interval : Z;
  refresh_timer : QTimer;
  web_view : QWebEngineView;
  size_grips : list SizeGrip;
  widget_parent : widget -> option widget;
  widget_geometry : widget -> QRect;
  pos : QPoint
}.

Definition set_timer (t : QTimer) (self : WebPageItem) : WebPageItem :=
  {| url := url self; refresh_interval := refresh_interval self;
     refresh_timer := t; web_view := web_view self;
     size_grips := size_grips self; widget_parent := widget_parent self;
     widget_geometry := widget_geometry self; pos := pos self |}.

Definition set_interval (s : Z) (self : WebPageItem) : WebPageItem :=
  {| url := url self; refresh_interval := s;
     refresh_timer := refresh_timer self; web_view := web_view self;
     size_grips := size_grips self; widget_parent := widget_parent self;
     widget_geometry := widget_geometry self; pos := pos self |}.

Definition set_web_view (v : QWebEngineView) (self : WebPageItem) : WebPageItem :=
  {| url := url self; refresh_interval := refresh_interval self;
     refresh_timer := refresh_timer self; web_view := v;
     size_grips := size_grips self; widget_parent := widget_parent self;
     widget_geometry := widget_geometry self; pos := pos self |}.

Definition setGeometry (w : widget) (r : QRect) (self : WebPageItem) : WebPageItem :=
  {| url := url self; refresh_interval := refresh_interval self;
     refresh_timer := refresh_timer self; web_view := web_view self;
     size_grips := size_grips self; widget_parent := widget_parent self;
     widget_geometry := fun w' =>
       if decide (w' = w) then r else widget_geometry self w';
     pos := pos self |}.

(** The position of the item in the scene; that Qt moves the embedded
    container along with the item is not followed. *)
Definition setPos (p : QPoint) (self : WebPageItem) : WebPageItem :=
  {| url := url self; refresh_interval := refresh_interval self;
     refresh_timer := refresh_timer self; web_view := web_view self;
     size_grips := size_grips self; widget_parent := widget_parent self;
     widget_geometry := widget_geometry self; pos := p |}.

(** Runs a method of the timer on the item's [refresh_timer]. *)
Definition on_timer {A} (c : Py QTimer A) : Py WebPageItem A :=
  fun self => let (r, t) := c (refresh_timer self) in (r, set_timer t self).

(** [WebPageItem.__init__]: [self.container = QWidget()] has no parent, and
    [setWidget] embeds it as it is (a proxy is not a widget, so it cannot be
    a widget's parent); each grip is built with the container as parent.
    The geometries are the rectangles Qt gives new widgets (640 by 480 for a
    top-level one, a grip fixed to 10 by 10); the layout and the position of
    the item change them in the running program, which is not followed here:
    no statement depends on their values. *)
Definition WebPageItem_init (u : string) : WebPageItem :=
  {| url := u;
     refresh_interval := 0;
     refresh_timer := QTimer_new;
     web_view := load u QWebEngineView_new;
     size_grips := [ {| corner := BottomRightCorner |};
                     {| corner := BottomLeftCorner |};
                     {| corner := TopRightCorner |};
                     {| corner := TopLeftCorner |} ];
     widget_parent := fun w =>
       match w with Container => None | Grip _ => Some Container end;
     widget_geometry := fun w =>
       match w with
       | Container => QRect_xywh 0 0 640 480
       | Grip _ => QRect_xywh 0 0 10 10
       end;
     pos := (0, 0) |}.

Definition refresh_page (self : WebPageItem) : WebPageItem :=
  set_web_view (reload (web_view self)) self.

Definition set_refresh_interval (seconds : Z) : Py WebPageItem unit :=
  modify (set_interval seconds) ;;
  on_timer stop ;;
  if 0 <? seconds then on_timer (start (seconds * 1000)) else mret tt.

(** The timer's [timeout] is connected to [refresh_page]: one call for each
    timeout of the next [ms] milliseconds. *)
Definition elapse (ms : Z) (self : WebPageItem) : WebPageItem :=
  let (n, t) := advance ms (refresh_timer self) in
  Nat.iter n refresh_page (set_timer t self).

(** ** SizeGrip *)

(** [mouseMoveEvent] of the grip [self] of the page item [it].  The widget
    it resizes is [self.parent().parent()]; when a [parent()] on the way is
    [None], the next attribute access raises. *)
Definition mouseMoveEvent (self : SizeGrip) (event : QMouseEvent)
  : Py WebPageItem unit :=
  fun it =>
    if buttons event =? LeftButton then
      match widget_parent it (Grip (corner self)) ≫= widget_parent it with
      | None => (Raises AttributeError, it)
      | Some parent =>
          let new_geom := widget_geometry it parent in
          let pos := globalPos event in
          let new_geom :=
            match corner self with
            | BottomRightCorner => setBottomRight pos new_geom
            | BottomLeftCorner => setBottomLeft pos new_geom
            | TopRightCorner => setTopRight pos new_geom
            | TopLeftCorner => setTopLeft pos new_geom
            end in
          (Returns tt, setGeometry parent new_geom it)
      end
    else (Returns tt, it).

(** ** RefreshSettingsDialog *)

Record RefreshSettingsDialog := { spin_box : QSpinBox }.

Definition RefreshSettingsDialog_init (current_interval : Z)
  : outcome RefreshSettingsDialog :=
  let spin_box := QSpinBox_new in
  let spin_box := setRange 0 3600 spin_box in
  match setValue current_interval spin_box with
  | (Returns _, spin_box) => Returns {| spin_box := spin_box |}
  | (Raises e, _) => Raises e
  end.

Definition get_interval (self : RefreshSettingsDialog) : Z :=
  value (spin_box self).

(** What the user does while [exec_] blocks: a series of edits of the field,
    then OK, or Cancel or closing the window.  The field takes an edit only
    as a value of its range. *)
Record session := { edits : list Z; result : DialogCode }.

(** An entry of the range becomes the value.  An entry outside the range,
    which the real field refuses key by key, is taken to the nearest bound:
    of such entries only the range of the value is stated. *)
Definition edit (v : Z) (self : RefreshSettingsDialog) : RefreshSettingsDialog :=
  let sb := spin_box self in
  {| spin_box := {| minimum := minimum sb; maximum := maximum sb;
                    value := bound (minimum sb) (maximum sb) v |} |}.

Definition exec_ (u : session) (self : RefreshSettingsDialog)
  : DialogCode * RefreshSettingsDialog :=
  (result u, foldl (fun d v => edit v d) self (edits u)).

(** ** Canvas and BrowserCanvasApp *)

(** Page items are Python objects: [heap] holds every item created so far at
    its identity (objects are not reclaimed in the model), [scene] the
    identities of the items of [canvas.scene], in insertion order. *)
Record BrowserCanvasApp := {
  heap : list WebPageItem;
  scene : list nat;
  current_page : option nat;
  url_input : string
}.

Definition set_heap (h : list WebPageItem) (self : BrowserCanvasApp) :=
  {| heap := h; scene := scene self; current_page := current_page self;
     url_input := url_input self |}.
Definition set_scene (sc : list nat) (self : BrowserCanvasApp) :=
  {| heap := heap self; scene := sc; current_page := current_page self;
     url_input := url_input self |}.
Definition set_current_page (c : option nat) (self : BrowserCanvasApp) :=
  {| heap := heap self; scene := scene self; current_page := c;
     url_input := url_input self |}.
Definition set_url_input (t : string) (self : BrowserCanvasApp) :=
  {| heap := heap self; scene := scene self; current_page := current_page self;
     url_input := t |}.

Definition BrowserCanvasApp_init : BrowserCanvasApp :=
  {| heap := []; scene := []; current_page := None; url_input := EmptyString |}.

(** Runs a method on the item of identity [i]. *)
Definition on_item (i : nat) (c : Py WebPageItem unit) : Py BrowserCanvasApp unit :=
  fun self =>
    match heap self !! i with
    | Some it => let (r, it') := c it in (r, set_heap (<[i := it']> (heap self)) self)
    | None => (Returns tt, self)
    end.

(** [QGraphicsScene.addItem] and [removeItem]. *)
Definition addItem (i : nat) (sc : list nat) : list nat :=
  if decide (i ∈ sc) then sc else sc ++ [i].
Definition removeItem (i : nat) (sc : list nat) : list nat :=
  filter (fun j => j ≠ i) sc.

(** [Canvas.add_web_page]; [rnd] is the pair of numbers [random.randint]
    draws.  Returns the identity of the new item. *)
Definition add_web_page (u : string) (rnd : QPoint)
  (self : BrowserCanvasApp) : nat * BrowserCanvasApp :=
  let page := length (heap self) in
  let self := set_heap (heap self ++ [WebPageItem_init u]) self in
  let self := set_scene (addItem page (scene self)) self in
  let self := set_heap (alter (setPos rnd) page (heap self)) self in
  (page, self).

(** [str.startswith] with a tuple of two prefixes. *)
Definition startswith (s p1 p2 : string) : bool :=
  String.prefix p1 s || String.prefix p2 s.

Definition add_new_page (rnd : QPoint) (self : BrowserCanvasApp)
  : BrowserCanvasApp :=
  let url := url_input self in
  let url := if negb (startswith url "http://" "https://")
             then String.append "https://" url else url in
  let self := snd (add_web_page url rnd self) in
  set_url_input EmptyString self.

Definition show_refresh_settings (u : session) : Py BrowserCanvasApp unit :=
  fun self =>
    match current_page self with
    | Some i =>
        match heap self !! i with
        | Some it =>
            match RefreshSettingsDialog_init (refresh_interval it) with
            | Returns dialog =>
                let (code, dialog) := exec_ u dialog in
                match code with
                | Accepted =>
                    let interval := get_interval dialog in
                    on_item i (set_refresh_interval interval) self
                | Rejected => (Returns tt, self)
                end
            | Raises e => (Raises e, self)
            end
        | None => (Returns tt, self)
        end
    | None => (Returns tt, self)
    end.

(** The entry the user picks in the context menu, if any. *)
Inductive choice :=
| RefreshNow
| AutoRefreshSettings (u : session)
| ClosePage
| NoAction.

(** [show_context_menu]; [hit] is the item under the cursor, which
    [scene.itemAt] finds among the items of the scene. *)
Definition itemAt (hit : option nat) (sc : list nat) : option nat :=
  hit ≫= fun i => if decide (i ∈ sc) then Some i else None.

Definition show_context_menu (hit : option nat) (pick : choice)
  : Py BrowserCanvasApp unit :=
  fun self =>
    match itemAt hit (scene self) with
    | Some item =>
        let self := set_current_page (Some item) self in
        match pick with
        | RefreshNow => on_item item (modify refresh_page) self
        | AutoRefreshSettings u => show_refresh_settings u self
        | ClosePage => (Returns tt, set_scene (removeItem item (scene self)) self)
        | NoAction => (Returns tt, self)
        end
    | None => (Returns tt, self)
    end.

(** ** The event loop *)

(** Time passing: every timer runs on the one event loop.  The timer of a
    closed item runs as long as the item is alive, which is as long as
    [current_page] refers to it; statements on closed items are made for
    that time only. *)
Definition tick (ms : Z) (self : BrowserCanvasApp) : BrowserCanvasApp :=
  set_heap (elapse ms <$> heap self) self.

Inductive event :=
| TypeUrl (text : string)
| AddNewPage (rnd : QPoint)
| ContextMenu (hit : option nat) (pick : choice)
| GripDrag (i : nat) (g : SizeGrip) (ev : QMouseEvent)
| Elapse (ms : Z).

Definition step (e : event) : Py BrowserCanvasApp unit :=
  match e with
  | TypeUrl text => modify (set_url_input text)
  | AddNewPage rnd => modify (add_new_page rnd)
  | ContextMenu hit pick => show_context_menu hit pick
  | GripDrag i g ev =>
      fun self =>
        if decide (i ∈ scene self) then on_item i (mouseMoveEvent g ev) self
        else (Returns tt, self)
  | Elapse ms => modify (tick ms)
  end.

Fixpoint run (es : list event) : Py BrowserCanvasApp unit :=
  match es with
  | [] => mret tt
  | e :: es => step e ;; run es
  end.

(** ** The operations of a page item, called directly *)

Inductive op :=
| Create (u : string) (rnd : QPoint)
| SetRefreshInterval (i : nat) (seconds : Z)
| RefreshPage (i : nat)
| Remove (i : nat).

Definition run_op (o : op) : Py BrowserCanvasApp unit :=
  match o with
  | Create u rnd => modify (fun self => snd (add_web_page u rnd self))
  | SetRefreshInterval i seconds => on_item i (set_refresh_interval seconds)
  | RefreshPage i => on_item i (modify refresh_page)
  | Remove i => modify (fun self => set_scene (removeItem i (scene self)) self)
  end.

Fixpoint run_ops (os : list op) : Py BrowserCanvasApp unit :=
  match os with
  | [] => mret tt
  | o :: os => run_op o ;; run_ops os
  end.

(** The state invariant of a page item. *)
Definition item_inv (it : WebPageItem) : Prop :=
  0 <= refresh_interval it <= 3600 /\
  (isActive (refresh_timer it) = true <-> 0 < refresh_interval it).

(** ** Specification predicates *)

(** From now on the item reloads its page once every [seconds] seconds. *)
Definition refreshes_every (seconds : Z) (it : WebPageItem) : Prop :=
  isActive (refresh_timer it) = true /\
  forall ms, 0 <= ms ->
    reloads (web_view (elapse ms it)) =
      (reloads (web_view it) + Z.to_nat (ms / (seconds * 1000)))%nat.

(** No timer of the item is running, and it never reloads by itself. *)
Definition never_refreshes (it : WebPageItem) : Prop :=
  isActive (refresh_timer it) = false /\
  forall ms, reloads (web_view (elapse ms it)) = reloads (web_view it).

(** What [set_refresh_interval(seconds)] is to achieve on [self]. *)
Definition set_refresh_interval_post (seconds : Z) (self : WebPageItem) : Prop :=
  let (r, self') := set_refresh_interval seconds self in
  r = Returns tt /\
  refresh_interval self' = seconds /\
  (0 < seconds -> refreshes_every seconds self') /\
  (seconds = 0 -> never_refreshes self').

(** Two calls in a row. *)
Definition set_refresh_interval_twice (seconds : Z) : Py WebPageItem unit :=
  set_refresh_interval seconds ;; set_refresh_interval seconds.

Definition idempotent_at (seconds : Z) (self : WebPageItem) : Prop :=
  let once := snd (set_refresh_interval seconds self) in
  let twice := snd (set_refresh_interval_twice seconds self) in
  twice = once /\
  (0 < seconds -> refreshes_every seconds twice) /\
  (seconds = 0 -> never_refreshes twice).

(** After "Close Page" on the item [i], the item is never reloaded by its
    timer again. *)
Definition no_refresh_after_close (i : nat) (self : BrowserCanvasApp) : Prop :=
  let self' := snd (show_context_menu (Some i) ClosePage self) in
  forall ms, 0 <= ms ->
    ((reloads ∘ web_view) <$> heap (tick ms self') !! i) =
    ((reloads ∘ web_view) <$> heap self !! i).

(** The calls the settings dialog can make: an interval of its range. *)
Definition valid_op (o : op) : Prop :=
  match o with
  | SetRefreshInterval _ seconds => 0 <= seconds <= 3600
  | _ => True
  end.

(** The object tree [WebPageItem.__init__] builds: the grips are children of
    the container, the container is nobody's child. *)
Definition tree_as_built (it : WebPageItem) : Prop :=
  widget_parent it Container = None /\
  forall c, widget_parent it (Grip c) = Some Container.

(** ** Further predicates on items and on the application *)

(** The URL [add_new_page] hands to the canvas for the text of the field. *)
Definition submitted_url (text : string) : string :=
  if negb (startswith text "http://" "https://")
  then String.append "https://" text else text.


(** A running timer has the period [refresh_interval] asks for and is
    inside its current period. *)
Definition timer_in_step (it : WebPageItem) : Prop :=
  match state (refresh_timer it) with
  | Active e =>
      interval (refresh_timer it) = refresh_interval it * 1000 /\
      0 <= e < interval (refresh_timer it)
  | Inactive => True
  end.

(** The references of the application are sound: the scene lists existing
    items, each once, and [current_page] is an existing item. *)
Definition refs_ok (self : BrowserCanvasApp) : Prop :=
  NoDup (scene self) /\
  Forall (fun i => (i < length (heap self))%nat) (scene self) /\
  (forall i, current_page self = Some i -> (i < length (heap self))%nat).

(** A move of the mouse over a grip with exactly the primary button held. *)
Definition primary_drag (e : event) : bool :=
  match e with
  | GripDrag _ _ ev => buttons ev =? LeftButton
  | _ => false
  end.

(** The value the dialog ends with: the last edit, or else the seed, taken
    into the range of the field. *)
Definition final_value (seed : Z) (es : list Z) : Z :=
  bound 0 3600 (default seed (last es)).

(** The two invariants of the timers together. *)
Definition timed_ok (it : WebPageItem) : Prop := item_inv it /\ timer_in_step it.

(** What of an item the user has set: its URL, its interval, and whether
    its timer runs. *)
Definition same_settings (it it' : WebPageItem) : Prop :=
  url it' = url it /\
  refresh_interval it' = refresh_interval it /\
  isActive (refresh_timer it') = isActive (refresh_timer it).

(** * Properties *)

(** ** QTimer *)

Lemma fits_int_spec (z : Z) :
  fits_int z = true <-> INT_MIN <= z <= INT_MAX.
Proof. unfold fits_int. rewrite andb_true_iff, !Z.leb_le. tauto. Qed.

Lemma fits_int_millis (seconds : Z) :
  0 <= seconds <= 2147483 -> fits_int (seconds * 1000) = true.
Proof. intros H. apply fits_int_spec. unfold INT_MIN, INT_MAX. lia. Qed.

(** A timer just started with a positive interval times out once per full
    interval. *)
Lemma advance_started (ms p : Z) :
  0 < p ->
  advance ms {| state := Active 0; interval := p |} =
    (Z.to_nat (ms / p), {| state := Active (ms mod p); interval := p |}).
Proof.
  intros Hp. unfold advance. simpl.
  destruct (Z.ltb_spec 0 p) as [_|]; [reflexivity | lia].
Qed.

Lemma advance_inactive (ms : Z) (t : QTimer) :
  isActive t = false -> advance ms t = (0%nat, t).
Proof.
  unfold isActive, advance. destruct (state t); [reflexivity | discriminate].
Qed.

Lemma advance_isActive (ms : Z) (t : QTimer) :
  isActive (snd (advance ms t)) = isActive t.
Proof.
  unfold advance, isActive. destruct (state t) as [|e] eqn:E; simpl.
  - rewrite E. reflexivity.
  - destruct (0 <? interval t); simpl; [reflexivity | rewrite E; reflexivity].
Qed.

(** ** WebPageItem *)

Lemma iter_refresh_page (n : nat) (it : WebPageItem) :
  Nat.iter n refresh_page it =
    set_web_view {| page := page (web_view it);
                    reloads := n + reloads (web_view it) |} it.
Proof.
  induction n as [|n IH]; simpl.
  - destruct it as [? ? ? [? ?] ? ? ? ?]. reflexivity.
  - rewrite IH. reflexivity.
Qed.

Lemma elapse_reloads (ms : Z) (it : WebPageItem) :
  reloads (web_view (elapse ms it)) =
    (fst (advance ms (refresh_timer it)) + reloads (web_view it))%nat.
Proof.
  unfold elapse. destruct (advance ms (refresh_timer it)) as [n t].
  rewrite iter_refresh_page. reflexivity.
Qed.

Lemma elapse_timer (ms : Z) (it : WebPageItem) :
  refresh_timer (elapse ms it) = snd (advance ms (refresh_timer it)).
Proof.
  unfold elapse. destruct (advance ms (refresh_timer it)) as [n t].
  rewrite iter_refresh_page. reflexivity.
Qed.

Lemma elapse_refresh_interval (ms : Z) (it : WebPageItem) :
  refresh_interval (elapse ms it) = refresh_interval it.
Proof.
  unfold elapse. destruct (advance ms (refresh_timer it)) as [n t].
  rewrite iter_refresh_page. reflexivity.
Qed.

(** The three ways [set_refresh_interval] ends. *)
Lemma set_refresh_interval_eq (seconds : Z) (self : WebPageItem) :
  set_refresh_interval seconds self =
    let stopped := {| state := Inactive;
                      interval := interval (refresh_timer self) |} in
    if 0 <? seconds then
      if fits_int (seconds * 1000)
      then (Returns tt,
            set_timer {| state := Active 0; interval := seconds * 1000 |}
              (set_interval seconds self))
      else (Raises OverflowError, set_timer stopped (set_interval seconds self))
    else (Returns tt, set_timer stopped (set_interval seconds self)).
Proof.
  unfold set_refresh_interval, mbind, Py_bind, bind, modify, on_timer, stop,
    start, mret, Py_ret, ret, raise.
  simpl. destruct (0 <? seconds); [|reflexivity].
  simpl. destruct (fits_int (seconds * 1000)); reflexivity.
Qed.

(** In the range of the timer the call returns, with the timer restarted
    or, for 0 seconds, stopped. *)
Lemma set_refresh_interval_in_range (seconds : Z) (self : WebPageItem) :
  0 <= seconds <= 2147483 ->
  set_refresh_interval seconds self =
    (Returns tt,
     set_timer
       (if 0 <? seconds
        then {| state := Active 0; interval := seconds * 1000 |}
        else {| state := Inactive; interval := interval (refresh_timer self) |})
       (set_interval seconds self)).
Proof.
  intros H. rewrite set_refresh_interval_eq. cbv zeta.
  destruct (0 <? seconds); [|reflexivity].
  rewrite fits_int_millis by exact H. reflexivity.
Qed.

Lemma started_refreshes_every (seconds : Z) (it : WebPageItem) :
  0 < seconds ->
  refresh_timer it = {| state := Active 0; interval := seconds * 1000 |} ->
  refreshes_every seconds it.
Proof.
  intros Hs Ht. split.
  - rewrite Ht. reflexivity.
  - intros ms _. rewrite elapse_reloads, Ht, advance_started by lia.
    simpl. lia.
Qed.

Lemma inactive_never_refreshes (it : WebPageItem) :
  isActive (refresh_timer it) = false -> never_refreshes it.
Proof.
  intros Ht. split; [exact Ht|].
  intros ms. rewrite elapse_reloads, advance_inactive by exact Ht. reflexivity.
Qed.

(** Whatever [seconds] is, the second of two calls in a row changes nothing. *)
Lemma set_refresh_interval_twice_state (seconds : Z) (self : WebPageItem) :
  snd (set_refresh_interval_twice seconds self) =
  snd (set_refresh_interval seconds self).
Proof.
  unfold set_refresh_interval_twice, mbind, Py_bind, bind.
  rewrite set_refresh_interval_eq. cbv zeta.
  destruct (0 <? seconds) eqn:Hs.
  - destruct (fits_int (seconds * 1000)) eqn:Hf; [|reflexivity].
    rewrite set_refresh_interval_eq, Hs, Hf. reflexivity.
  - rewrite set_refresh_interval_eq, Hs. reflexivity.
Qed.

(** C3 (amended): for every integer [seconds] from 0 to 2147483, the largest
    number of seconds whose milliseconds fit the timer's 32-bit interval,
    [set_refresh_interval(seconds)] returns, stores [seconds] as
    [refresh_interval], drops the old timer run and, when [seconds > 0],
    starts the timer anew so that [refresh_page] runs once every [seconds]
    seconds; when [seconds = 0] no timer runs. *)
Theorem set_refresh_interval_spec (seconds : Z) (self : WebPageItem) :
  0 <= seconds <= 2147483 ->
  set_refresh_interval_post seconds self.
Proof.
  intros H. unfold set_refresh_interval_post.
  rewrite set_refresh_interval_in_range by exact H.
  split; [reflexivity|]. split; [reflexivity|].
  destruct (Z.ltb_spec 0 seconds) as [Hpos|Hnpos]; split.
  - intros _. apply started_refreshes_every; [exact Hpos | reflexivity].
  - intros ->. lia.
  - intros Hpos. lia.
  - intros _. apply inactive_never_refreshes. reflexivity.
Qed.

Lemma set_refresh_interval_spec_witness :
  set_refresh_interval_post 5 (WebPageItem_init "https://example.com").
Proof. apply set_refresh_interval_spec. lia. Defined.

(** C3, as stated for every non-negative integer, fails at 2147484 seconds:
    2147484000 milliseconds do not fit the timer's interval, the call raises
    [OverflowError] and no timer is started. *)
Lemma set_refresh_interval_spec_overflow :
  0 <= 2147484 /\
  ~ set_refresh_interval_post 2147484 (WebPageItem_init "https://example.com").
Proof.
  split; [lia|]. unfold set_refresh_interval_post.
  rewrite set_refresh_interval_eq. simpl.
  intros [H _]. discriminate H.
Qed.

(** C8 (amended): for every integer [s] from 0 to 2147483, two calls of
    [set_refresh_interval(s)] in a row both return and leave the item in the
    state one call leaves it in: its one timer runs with period [s] seconds,
    or no timer runs when [s = 0]. *)
Theorem set_refresh_interval_idempotent (s : Z) (self : WebPageItem) :
  0 <= s <= 2147483 ->
  fst (set_refresh_interval_twice s self) = Returns tt /\
  idempotent_at s self.
Proof.
  intros H. unfold idempotent_at.
  rewrite set_refresh_interval_twice_state.
  unfold set_refresh_interval_twice, mbind, Py_bind, bind.
  rewrite (set_refresh_interval_in_range s self H).
  rewrite set_refresh_interval_in_range by exact H.
  split; [reflexivity|]. split; [reflexivity|]. simpl.
  destruct (Z.ltb_spec 0 s) as [Hpos|Hnpos]; split.
  - intros _. apply started_refreshes_every; [exact Hpos | reflexivity].
  - intros ->. lia.
  - intros Hpos. lia.
  - intros _. apply inactive_never_refreshes. reflexivity.
Qed.

Lemma set_refresh_interval_idempotent_witness :
  fst (set_refresh_interval_twice 5 (WebPageItem_init "https://example.com"))
    = Returns tt /\
  idempotent_at 5 (WebPageItem_init "https://example.com").
Proof. apply set_refresh_interval_idempotent. lia. Defined.

(** C8, as stated for every non-negative integer, fails at [s = 2147484]:
    after the two calls no timer runs, though [s] is not 0. *)
Lemma set_refresh_interval_idempotent_overflow :
  0 <= 2147484 /\
  ~ idempotent_at 2147484 (WebPageItem_init "https://example.com").
Proof.
  split; [lia|]. unfold idempotent_at.
  rewrite set_refresh_interval_twice_state, set_refresh_interval_eq. simpl.
  intros (_ & Hpos & _). destruct Hpos as [Hact _]; [lia|].
  discriminate Hact.
Qed.

(** C9: for every integer [seconds <= 0], negative ones included,
    [set_refresh_interval(seconds)] does not raise; it stops the timer,
    starts none, and stores [seconds] as [refresh_interval]. *)
Theorem set_refresh_interval_nonpositive (seconds : Z) (self : WebPageItem) :
  seconds <= 0 ->
  set_refresh_interval seconds self =
    (Returns tt,
     set_timer {| state := Inactive; interval := interval (refresh_timer self) |}
       (set_interval seconds self)) /\
  let self' := snd (set_refresh_interval seconds self) in
  refresh_interval self' = seconds /\ never_refreshes self'.
Proof.
  intros H. rewrite set_refresh_interval_eq. cbv zeta.
  destruct (Z.ltb_spec 0 seconds) as [Hpos|_]; [lia|].
  split; [reflexivity|]. simpl. split; [reflexivity|].
  apply inactive_never_refreshes. reflexivity.
Qed.

Lemma set_refresh_interval_nonpositive_witness :
  let self := snd (set_refresh_interval 5 (WebPageItem_init "https://example.com")) in
  isActive (refresh_timer self) = true /\
  fst (set_refresh_interval (-5) self) = Returns tt /\
  refresh_interval (snd (set_refresh_interval (-5) self)) = -5 /\
  never_refreshes (snd (set_refresh_interval (-5) self)).
Proof.
  cbv zeta. split; [reflexivity|].
  destruct (set_refresh_interval_nonpositive (-5)
              (snd (set_refresh_interval 5 (WebPageItem_init "https://example.com"))))
    as [Heq [Hint Hnever]]; [lia|].
  split; [rewrite Heq; reflexivity|]. split; [exact Hint | exact Hnever].
Defined.

(** ** RefreshSettingsDialog *)

Lemma bound_id (lo hi v : Z) : lo <= v <= hi -> bound lo hi v = v.
Proof. unfold bound. lia. Qed.

Lemma bound_range (lo hi v : Z) : lo <= hi -> lo <= bound lo hi v <= hi.
Proof. unfold bound. lia. Qed.

(** C7: a dialog seeded with a value of [0, 3600] and confirmed without an
    edit gives the seed back from [get_interval]. *)
Theorem dialog_round_trip (seed : Z) :
  0 <= seed <= 3600 ->
  exists dialog,
    RefreshSettingsDialog_init seed = Returns dialog /\
    let (code, dialog') := exec_ {| edits := []; result := Accepted |} dialog in
    code = Accepted /\ get_interval dialog' = seed.
Proof.
  intros H. unfold RefreshSettingsDialog_init, setValue.
  assert (Hfit : fits_int seed = true).
  { apply fits_int_spec. unfold INT_MIN, INT_MAX. lia. }
  rewrite Hfit. simpl. eexists. split; [reflexivity|].
  split; [reflexivity|]. unfold get_interval. simpl.
  apply bound_id. simpl. lia.
Qed.

Lemma dialog_round_trip_witness :
  exists dialog,
    RefreshSettingsDialog_init 42 = Returns dialog /\
    let (code, dialog') := exec_ {| edits := []; result := Accepted |} dialog in
    code = Accepted /\ get_interval dialog' = 42.
Proof. apply dialog_round_trip. lia. Defined.

(** ** Canvas and BrowserCanvasApp *)

Lemma add_web_page_eq (u : string) (rnd : QPoint) (self : BrowserCanvasApp) :
  add_web_page u rnd self =
    (length (heap self),
     {| heap := heap self ++ [setPos rnd (WebPageItem_init u)];
        scene := addItem (length (heap self)) (scene self);
        current_page := current_page self;
        url_input := url_input self |}).
Proof.
  unfold add_web_page, set_heap, set_scene. simpl. do 2 f_equal.
  rewrite <- (Nat.add_0_r (length (heap self))) at 1.
  rewrite alter_app_r. reflexivity.
Qed.

Lemma addItem_elem (i : nat) (sc : list nat) : i ∈ addItem i sc.
Proof.
  unfold addItem. destruct (decide (i ∈ sc)) as [Hin|_]; [exact Hin|].
  apply elem_of_app. right. apply list_elem_of_singleton. reflexivity.
Qed.

(** C6: closing the settings dialog with Cancel, whatever was edited in it,
    leaves the whole application state as it was: no item's
    [refresh_interval] or timer changes.  Reached from the context menu, only
    [current_page] is set, as for every entry of the menu. *)
Theorem cancel_changes_nothing (u : session) (self : BrowserCanvasApp) :
  result u = Rejected ->
  snd (show_refresh_settings u self) = self /\
  forall hit,
    heap (snd (show_context_menu hit (AutoRefreshSettings u) self)) = heap self.
Proof.
  intros Hu.
  assert (Hsame : forall st, snd (show_refresh_settings u st) = st).
  { intros st. unfold show_refresh_settings.
    destruct (current_page st) as [i|]; [|reflexivity].
    destruct (heap st !! i) as [it|]; [|reflexivity].
    destruct (RefreshSettingsDialog_init (refresh_interval it)) as [d|e];
      [|reflexivity].
    unfold exec_. rewrite Hu. reflexivity. }
  split; [apply Hsame|].
  intros hit. unfold show_context_menu.
  destruct (itemAt hit (scene self)) as [item|]; [|reflexivity].
  rewrite Hsame. reflexivity.
Qed.

Lemma cancel_changes_nothing_witness :
  let self :=
    snd (run [TypeUrl "example.com"; AddNewPage (3, 4);
              ContextMenu (Some 0%nat)
                (AutoRefreshSettings {| edits := [5]; result := Accepted |});
              Elapse 1234]
           BrowserCanvasApp_init) in
  let u := {| edits := [30; 0]; result := Rejected |} in
  (refresh_interval <$> heap self) = [5] /\
  snd (show_refresh_settings u self) = self /\
  forall hit,
    heap (snd (show_context_menu hit (AutoRefreshSettings u) self)) = heap self.
Proof.
  cbv zeta. split; [reflexivity|].
  apply cancel_changes_nothing. reflexivity.
Defined.

(** C4 (amended): [Canvas.add_web_page] stores the URL as it is given, so
    [add_web_page("example.com")] yields an item whose URL is "example.com",
    with [refresh_interval] 0; the missing scheme is defaulted by
    [add_new_page] before it calls the canvas: submitting the text
    "example.com" yields an item whose URL is "https://example.com", with
    [refresh_interval] 0. *)
Theorem add_web_page_stores_url (rnd : QPoint) (self : BrowserCanvasApp) :
  (forall u,
     let (page, self') := add_web_page u rnd self in
     exists it, heap self' !! page = Some it /\
                url it = u /\ refresh_interval it = 0) /\
  (let self' := add_new_page rnd (set_url_input "example.com" self) in
   exists it, heap self' !! length (heap self) = Some it /\
              url it = "https://example.com"%string /\ refresh_interval it = 0).
Proof.
  split.
  - intros u. rewrite add_web_page_eq.
    exists (setPos rnd (WebPageItem_init u)).
    split; [|split; reflexivity].
    simpl. apply list_lookup_middle. reflexivity.
  - unfold add_new_page. rewrite add_web_page_eq. simpl.
    exists (setPos rnd (WebPageItem_init "https://example.com")).
    split; [|split; reflexivity].
    apply list_lookup_middle. reflexivity.
Qed.

(** C4, as stated, fails: the item [add_web_page("example.com")] creates has
    the URL "example.com", not "https://example.com". *)
Lemma add_web_page_no_default_scheme :
  let (page, self) := add_web_page "example.com" (0, 0) BrowserCanvasApp_init in
  (url <$> heap self !! page) = Some "example.com"%string /\
  (url <$> heap self !! page) <> Some "https://example.com"%string.
Proof. simpl. split; [reflexivity | discriminate]. Qed.

(** C10: when the text of the URL field starts with neither "http://" nor
    "https://", the empty text included, [add_new_page] puts "https://"
    before it, creates a page item for the result in the scene, whose stored
    URL is "https://" followed by the text, and clears the field; the empty
    text gives the URL "https://". *)
Theorem add_new_page_prefixes (rnd : QPoint) (self : BrowserCanvasApp) :
  startswith (url_input self) "http://" "https://" = false ->
  let self' := add_new_page rnd self in
  heap self' =
    heap self ++
      [setPos rnd (WebPageItem_init (String.append "https://" (url_input self)))] /\
  (url <$> heap self' !! length (heap self)) =
    Some (String.append "https://" (url_input self)) /\
  length (heap self) ∈ scene self' /\
  url_input self' = EmptyString /\
  (url_input self = EmptyString ->
   (url <$> heap self' !! length (heap self)) = Some "https://"%string).
Proof.
  intros Hs. cbv zeta. unfold add_new_page. rewrite Hs. simpl negb. cbv iota.
  rewrite add_web_page_eq. simpl.
  split; [reflexivity|].
  split; [rewrite list_lookup_middle by reflexivity; reflexivity|].
  split; [apply addItem_elem|]. split; [reflexivity|].
  intros ->. rewrite list_lookup_middle by reflexivity. reflexivity.
Qed.

Lemma add_new_page_prefixes_witness :
  let self := set_url_input "example.com/a?b=1" BrowserCanvasApp_init in
  let self' := add_new_page (7, 9) self in
  let empty' := add_new_page (7, 9) BrowserCanvasApp_init in
  heap self' = [setPos (7, 9) (WebPageItem_init "https://example.com/a?b=1")] /\
  (url <$> heap self' !! 0%nat) = Some "https://example.com/a?b=1"%string /\
  0%nat ∈ scene self' /\
  url_input self' = EmptyString /\
  heap empty' = [setPos (7, 9) (WebPageItem_init "https://")] /\
  (url <$> heap empty' !! 0%nat) = Some "https://"%string /\
  0%nat ∈ scene empty' /\
  url_input empty' = EmptyString.
Proof.
  destruct (add_new_page_prefixes (7, 9)
              (set_url_input "example.com/a?b=1" BrowserCanvasApp_init) eq_refl)
    as (Hheap & Hurl & Hscene & Hinput & _).
  destruct (add_new_page_prefixes (7, 9) BrowserCanvasApp_init eq_refl)
    as (Hheap0 & _ & Hscene0 & Hinput0 & Hurl0).
  cbv zeta. split; [exact Hheap|]. split; [exact Hurl|].
  split; [exact Hscene|]. split; [exact Hinput|].
  split; [exact Hheap0|]. split; [exact (Hurl0 eq_refl)|].
  split; [exact Hscene0 | exact Hinput0].
Defined.

Lemma itemAt_elem (i : nat) (sc : list nat) :
  i ∈ sc -> itemAt (Some i) sc = Some i.
Proof.
  intros Hin. unfold itemAt. simpl.
  destruct (decide (i ∈ sc)); [reflexivity | contradiction].
Qed.

Lemma removeItem_not_elem (i : nat) (sc : list nat) : i ∉ removeItem i sc.
Proof.
  unfold removeItem. rewrite list_elem_of_filter. intros [Hne _].
  apply Hne. reflexivity.
Qed.

(** C1 (amended): "Close Page" only takes the item out of the scene.  The
    item stays referenced as [current_page], its [refresh_interval] and its
    timer are left as they are, and a running timer goes on calling
    [refresh_page] on the removed item: once the rest of the current period
    has passed, the page has been reloaded again. *)
Theorem close_page_keeps_timer
  (i : nat) (it : WebPageItem) (e p : Z) (self : BrowserCanvasApp) :
  i ∈ scene self ->
  heap self !! i = Some it ->
  refresh_timer it = {| state := Active e; interval := p |} ->
  0 <= e < p ->
  let (r, self') := show_context_menu (Some i) ClosePage self in
  r = Returns tt /\
  (i ∉ scene self') /\
  current_page self' = Some i /\
  heap self' = heap self /\
  forall ms, p - e <= ms ->
    exists it', heap (tick ms self') !! i = Some it' /\
                isActive (refresh_timer it') = true /\
                (reloads (web_view it) < reloads (web_view it'))%nat.
Proof.
  intros Hin Hit Ht He. unfold show_context_menu.
  rewrite itemAt_elem by exact Hin. simpl.
  split; [reflexivity|]. split; [apply removeItem_not_elem|].
  split; [reflexivity|]. split; [reflexivity|].
  intros ms Hms. exists (elapse ms it).
  split; [|split].
  - rewrite list_lookup_fmap, Hit. reflexivity.
  - rewrite elapse_timer, advance_isActive, Ht. reflexivity.
  - rewrite elapse_reloads, Ht. unfold advance. simpl.
    destruct (Z.ltb_spec 0 p) as [Hp|]; [|lia]. simpl.
    assert (1 <= (e + ms) / p) by (apply Z.div_le_lower_bound; lia).
    lia.
Qed.

Lemma close_page_keeps_timer_witness :
  let it := snd (set_refresh_interval 5 (WebPageItem_init "https://example.com")) in
  let self := {| heap := [it]; scene := [0%nat]; current_page := None;
                 url_input := EmptyString |} in
  let (r, self') := show_context_menu (Some 0%nat) ClosePage self in
  r = Returns tt /\
  (0%nat ∉ scene self') /\
  current_page self' = Some 0%nat /\
  heap self' = heap self /\
  forall ms, 5000 - 0 <= ms ->
    exists it', heap (tick ms self') !! 0%nat = Some it' /\
                isActive (refresh_timer it') = true /\
                (reloads (web_view it) < reloads (web_view it'))%nat.
Proof.
  cbv zeta. apply close_page_keeps_timer.
  - apply list_elem_of_singleton. reflexivity.
  - reflexivity.
  - reflexivity.
  - lia.
Defined.

(** C1, as stated, fails: an item refreshing every 5 seconds is closed from
    the context menu, and 5 seconds later its timer has called
    [refresh_page] on it. *)
Lemma close_page_timer_still_fires :
  let self :=
    snd (run [TypeUrl "example.com"; AddNewPage (3, 4);
              ContextMenu (Some 0%nat)
                (AutoRefreshSettings {| edits := [5]; result := Accepted |})]
           BrowserCanvasApp_init) in
  ((isActive ∘ refresh_timer) <$> heap self !! 0%nat) = Some true /\
  ~ no_refresh_after_close 0 self.
Proof.
  cbv zeta. split; [reflexivity|].
  intros H. specialize (H 5000 ltac:(lia)). vm_compute in H. discriminate H.
Qed.

(** ** Invariants of the page items *)

Lemma dialog_interval_range (seed : Z) (dialog : RefreshSettingsDialog) (u : session) :
  RefreshSettingsDialog_init seed = Returns dialog ->
  0 <= get_interval (snd (exec_ u dialog)) <= 3600.
Proof.
  unfold RefreshSettingsDialog_init, setValue.
  destruct (fits_int seed); [|discriminate]. simpl.
  intros [= <-]. unfold exec_. simpl.
  set (d0 := {| spin_box := _ |}).
  assert (Hd0 : minimum (spin_box d0) = 0 /\ maximum (spin_box d0) = 3600 /\
                0 <= get_interval d0 <= 3600).
  { split; [reflexivity|]. split; [reflexivity|].
    unfold get_interval. simpl. apply bound_range. simpl. lia. }
  clearbody d0. revert d0 Hd0.
  induction (edits u) as [|v vs IH]; intros d (Hmin & Hmax & Hval); simpl.
  - exact Hval.
  - apply IH. unfold edit, get_interval. simpl. rewrite Hmin, Hmax.
    split; [reflexivity|]. split; [reflexivity|]. apply bound_range. lia.
Qed.

Section Preservation.

Variable P : WebPageItem -> Prop.
Hypothesis P_init : forall u, P (WebPageItem_init u).
Hypothesis P_setPos : forall p it, P it -> P (setPos p it).
Hypothesis P_refresh_page : forall it, P it -> P (refresh_page it).
Hypothesis P_set_refresh_interval : forall s it,
  0 <= s <= 3600 -> P it -> P (snd (set_refresh_interval s it)).

Lemma on_item_preserves (i : nat) (c : Py WebPageItem unit) (self : BrowserCanvasApp) :
  (forall it, P it -> P (snd (c it))) ->
  Forall P (heap self) -> Forall P (heap (snd (on_item i c self))).
Proof.
  intros Hc Hall. unfold on_item.
  destruct (heap self !! i) as [it|] eqn:Hit; [|exact Hall].
  specialize (Hc it (Forall_lookup_1 _ _ _ _ Hall Hit)).
  destruct (c it) as [r it']. simpl in *.
  apply Forall_insert; assumption.
Qed.

Lemma add_web_page_preserves (u : string) (rnd : QPoint) (self : BrowserCanvasApp) :
  Forall P (heap self) -> Forall P (heap (snd (add_web_page u rnd self))).
Proof.
  intros Hall. rewrite add_web_page_eq. simpl.
  apply Forall_app. split; [exact Hall|].
  constructor; [|constructor]. apply P_setPos, P_init.
Qed.

Lemma run_op_preserves (o : op) (self : BrowserCanvasApp) :
  valid_op o -> Forall P (heap self) -> Forall P (heap (snd (run_op o self))).
Proof.
  intros Hv Hall. destruct o as [u rnd|i seconds|i|i]; simpl.
  - apply add_web_page_preserves, Hall.
  - apply on_item_preserves; [|exact Hall].
    intros it. apply P_set_refresh_interval, Hv.
  - apply on_item_preserves; [|exact Hall]. intros it. apply P_refresh_page.
  - exact Hall.
Qed.

Lemma run_ops_preserves (os : list op) (self : BrowserCanvasApp) :
  Forall valid_op os -> Forall P (heap self) ->
  Forall P (heap (snd (run_ops os self))).
Proof.
  intros Hv. revert self. induction Hv as [|o os Ho _ IH]; intros self Hall.
  - exact Hall.
  - simpl. unfold mbind, Py_bind, bind.
    pose proof (run_op_preserves o self Ho Hall) as Hstep.
    destruct (run_op o self) as [[[]|e] self']; simpl in *.
    + apply IH, Hstep.
    + exact Hstep.
Qed.

Hypothesis P_elapse : forall ms it, P it -> P (elapse ms it).
Hypothesis P_mouseMoveEvent : forall g ev it,
  P it -> P (snd (mouseMoveEvent g ev it)).

Lemma show_refresh_settings_preserves (u : session) (self : BrowserCanvasApp) :
  Forall P (heap self) ->
  Forall P (heap (snd (show_refresh_settings u self))).
Proof.
  intros Hall. unfold show_refresh_settings.
  destruct (current_page self) as [i|]; [|exact Hall].
  destruct (heap self !! i) as [it|]; [|exact Hall].
  destruct (RefreshSettingsDialog_init (refresh_interval it)) as [d|e] eqn:Hd;
    [|exact Hall].
  pose proof (dialog_interval_range _ _ u Hd) as Hrange.
  destruct (exec_ u d) as [[|] d']; [exact Hall|]. simpl in Hrange.
  apply on_item_preserves; [|exact Hall].
  intros it'. apply P_set_refresh_interval, Hrange.
Qed.

Lemma step_preserves (e : event) (self : BrowserCanvasApp) :
  Forall P (heap self) -> Forall P (heap (snd (step e self))).
Proof.
  intros Hall. destruct e as [text|rnd|hit pick|i g ev|ms]; simpl.
  - exact Hall.
  - unfold add_new_page. simpl. apply add_web_page_preserves, Hall.
  - unfold show_context_menu.
    destruct (itemAt hit (scene self)) as [item|]; [|exact Hall].
    destruct pick as [|u| |].
    + apply on_item_preserves; [|exact Hall]. intros it. apply P_refresh_page.
    + apply show_refresh_settings_preserves, Hall.
    + exact Hall.
    + exact Hall.
  - destruct (decide (i ∈ scene self)); [|exact Hall].
    apply on_item_preserves; [|exact Hall]. intros it. apply P_mouseMoveEvent.
  - apply Forall_fmap. eapply Forall_impl; [exact Hall|].
    intros it. apply P_elapse.
Qed.

Lemma run_preserves (es : list event) (self : BrowserCanvasApp) :
  Forall P (heap self) -> Forall P (heap (snd (run es self))).
Proof.
  revert self. induction es as [|e es IH]; intros self Hall.
  - exact Hall.
  - simpl. unfold mbind, Py_bind, bind.
    pose proof (step_preserves e self Hall) as Hstep.
    destruct (step e self) as [[[]|x] self']; simpl in *.
    + apply IH, Hstep.
    + exact Hstep.
Qed.

End Preservation.

Lemma item_inv_init (u : string) : item_inv (WebPageItem_init u).
Proof. unfold item_inv. simpl. split; [lia|]. split; [discriminate | lia]. Qed.

Lemma item_inv_setPos (p : QPoint) (it : WebPageItem) :
  item_inv it -> item_inv (setPos p it).
Proof. intros H. exact H. Qed.

Lemma item_inv_refresh_page (it : WebPageItem) :
  item_inv it -> item_inv (refresh_page it).
Proof. intros H. exact H. Qed.

Lemma item_inv_set_refresh_interval (s : Z) (it : WebPageItem) :
  0 <= s <= 3600 -> item_inv it -> item_inv (snd (set_refresh_interval s it)).
Proof.
  intros Hs _. rewrite set_refresh_interval_eq. cbv zeta.
  destruct (Z.ltb_spec 0 s) as [Hpos|Hnpos].
  - rewrite fits_int_millis by lia. unfold item_inv. simpl.
    split; [exact Hs|]. split; [intros _; exact Hpos | reflexivity].
  - unfold item_inv. simpl.
    split; [exact Hs|]. split; [discriminate | lia].
Qed.

Lemma item_inv_elapse (ms : Z) (it : WebPageItem) :
  item_inv it -> item_inv (elapse ms it).
Proof.
  unfold item_inv.
  rewrite elapse_refresh_interval, elapse_timer, advance_isActive. tauto.
Qed.

Lemma item_inv_mouseMoveEvent (g : SizeGrip) (ev : QMouseEvent) (it : WebPageItem) :
  item_inv it -> item_inv (snd (mouseMoveEvent g ev it)).
Proof.
  intros H. unfold mouseMoveEvent.
  destruct (buttons ev =? LeftButton); [|exact H].
  destruct (widget_parent it (Grip (corner g)) ≫= widget_parent it);
    exact H.
Qed.

Lemma set_refresh_interval_returns (s : Z) (it : WebPageItem) :
  0 <= s <= 3600 -> fst (set_refresh_interval s it) = Returns tt.
Proof.
  intros Hs. rewrite set_refresh_interval_eq. cbv zeta.
  destruct (0 <? s); [|reflexivity].
  rewrite fits_int_millis by lia. reflexivity.
Qed.

Lemma run_op_returns (o : op) (self : BrowserCanvasApp) :
  valid_op o -> fst (run_op o self) = Returns tt.
Proof.
  intros Hv. destruct o as [u rnd|i seconds|i|i]; simpl; try reflexivity.
  - unfold on_item. destruct (heap self !! i) as [it|]; [|reflexivity].
    pose proof (set_refresh_interval_returns seconds it Hv) as Hr.
    destruct (set_refresh_interval seconds it). exact Hr.
  - unfold on_item. destruct (heap self !! i) as [it|]; reflexivity.
Qed.

Lemma run_ops_returns (os : list op) (self : BrowserCanvasApp) :
  Forall valid_op os -> fst (run_ops os self) = Returns tt.
Proof.
  intros Hv. revert self. induction Hv as [|o os Ho _ IH]; intros self.
  - reflexivity.
  - simpl. unfold mbind, Py_bind, bind.
    pose proof (run_op_returns o self Ho) as Hr.
    destruct (run_op o self) as [r self']. simpl in Hr. subst r. apply IH.
Qed.

(** C2 (amended): over every sequence of creations, refreshes, removals and
    calls of [set_refresh_interval] with an interval of [0, 3600], the only
    intervals the settings dialog hands over, every call returns and every
    page item, in the scene or removed from it, keeps the invariant:
    [refresh_interval] is in [0, 3600] and the timer runs exactly when
    [refresh_interval > 0]. *)
Theorem invariant_preserved (os : list op) (self : BrowserCanvasApp) :
  Forall valid_op os ->
  Forall item_inv (heap self) ->
  let (r, self') := run_ops os self in
  r = Returns tt /\ Forall item_inv (heap self').
Proof.
  intros Hv Hall.
  pose proof (run_ops_returns os self Hv) as Hr.
  pose proof (run_ops_preserves item_inv item_inv_init item_inv_setPos
                item_inv_refresh_page item_inv_set_refresh_interval
                os self Hv Hall) as Hinv.
  destruct (run_ops os self) as [r self']. split; assumption.
Qed.

Lemma invariant_preserved_witness :
  let (r, self') :=
    run_ops [Create "https://example.com" (3, 4); SetRefreshInterval 0 3600;
             RefreshPage 0; Create "http://localhost" (0, 0); Remove 0;
             SetRefreshInterval 0 0; SetRefreshInterval 1 5]
      BrowserCanvasApp_init in
  r = Returns tt /\ Forall item_inv (heap self').
Proof.
  apply invariant_preserved.
  - repeat constructor; simpl; lia.
  - constructor.
Defined.

(** C2, as stated for every sequence of operations, fails:
    [set_refresh_interval] stores what it is given, so after
    [set_refresh_interval(3601)] the interval is outside [0, 3600]. *)
Lemma invariant_broken_by_setter :
  let (r, self') :=
    run_ops [Create "https://example.com" (3, 4); SetRefreshInterval 0 3601]
      BrowserCanvasApp_init in
  r = Returns tt /\ ~ Forall item_inv (heap self').
Proof.
  simpl. split; [reflexivity|].
  intros H. apply Forall_inv in H. destruct H as [[_ H] _].
  simpl in H. lia.
Qed.

(** In the running application the interval is only ever set from the
    dialog, and the invariant holds of every item after every series of
    events. *)
Lemma run_item_inv (es : list event) :
  Forall item_inv (heap (snd (run es BrowserCanvasApp_init))).
Proof.
  apply (run_preserves item_inv item_inv_init item_inv_setPos
           item_inv_refresh_page item_inv_set_refresh_interval
           item_inv_elapse item_inv_mouseMoveEvent).
  constructor.
Qed.

(** ** SizeGrip *)

(** Setting a corner of a [QRect] moves that corner and keeps the opposite
    one. *)
Lemma QRect_corner_laws (p : QPoint) (r : QRect) :
  (bottomRight (setBottomRight p r) = p /\
   topLeft (setBottomRight p r) = topLeft r) /\
  (bottomLeft (setBottomLeft p r) = p /\
   topRight (setBottomLeft p r) = topRight r) /\
  (topRight (setTopRight p r) = p /\
   bottomLeft (setTopRight p r) = bottomLeft r) /\
  (topLeft (setTopLeft p r) = p /\
   bottomRight (setTopLeft p r) = bottomRight r).
Proof. destruct p as [px py]. repeat split. Qed.

Lemma tree_as_built_init (u : string) : tree_as_built (WebPageItem_init u).
Proof. split; [reflexivity | intros c; reflexivity]. Qed.

(** On the object tree a page item has, the widget a grip resizes,
    [self.parent().parent()], is [None]: a drag with the primary button
    raises and changes nothing. *)
Lemma mouseMoveEvent_no_target (g : SizeGrip) (ev : QMouseEvent) (it : WebPageItem) :
  tree_as_built it ->
  buttons ev = LeftButton ->
  mouseMoveEvent g ev it = (Raises AttributeError, it).
Proof.
  intros [Hc Hg] Hb. unfold mouseMoveEvent.
  rewrite Hb, Z.eqb_refl, Hg. simpl. rewrite Hc. reflexivity.
Qed.

Lemma tree_as_built_mouseMoveEvent (g : SizeGrip) (ev : QMouseEvent) (it : WebPageItem) :
  tree_as_built it -> tree_as_built (snd (mouseMoveEvent g ev it)).
Proof.
  intros H. unfold mouseMoveEvent.
  destruct (buttons ev =? LeftButton); [|exact H].
  destruct (widget_parent it (Grip (corner g)) ≫= widget_parent it);
    exact H.
Qed.

Lemma tree_as_built_set_refresh_interval (s : Z) (it : WebPageItem) :
  0 <= s <= 3600 -> tree_as_built it ->
  tree_as_built (snd (set_refresh_interval s it)).
Proof.
  intros _ H. rewrite set_refresh_interval_eq. cbv zeta.
  destruct (0 <? s); [destruct (fits_int (s * 1000))|]; exact H.
Qed.

Lemma tree_as_built_elapse (ms : Z) (it : WebPageItem) :
  tree_as_built it -> tree_as_built (elapse ms it).
Proof.
  intros H. unfold elapse. destruct (advance ms (refresh_timer it)) as [n t].
  rewrite iter_refresh_page. exact H.
Qed.

(** No series of events gives a container a parent. *)
Lemma run_tree_as_built (es : list event) :
  Forall tree_as_built (heap (snd (run es BrowserCanvasApp_init))).
Proof.
  apply (run_preserves tree_as_built tree_as_built_init).
  - intros p it H. exact H.
  - intros it H. exact H.
  - exact tree_as_built_set_refresh_interval.
  - exact tree_as_built_elapse.
  - exact tree_as_built_mouseMoveEvent.
  - constructor.
Qed.

(** C5 (the code at the failing input): a drag with the primary button on
    any grip of a new page item, to any pointer position, raises
    [AttributeError] and leaves every geometry as it was, where the claim
    has the grip's corner follow the pointer. *)
Theorem mouseMoveEvent_raises (u : string) (c : Corner) (p : QPoint) :
  mouseMoveEvent {| corner := c |} {| buttons := LeftButton; globalPos := p |}
    (WebPageItem_init u)
  = (Raises AttributeError, WebPageItem_init u).
Proof.
  apply mouseMoveEvent_no_target; [apply tree_as_built_init | reflexivity].
Qed.

(** The same in the running application: a page is added and its
    bottom-right grip dragged to (300, 200). *)
Lemma grip_drag_example :
  let self := snd (run [TypeUrl "example.com"; AddNewPage (3, 4)]
                     BrowserCanvasApp_init) in
  let drag := GripDrag 0 {| corner := BottomRightCorner |}
                {| buttons := LeftButton; globalPos := (300, 200) |} in
  step drag self = (Raises AttributeError, self).
Proof. reflexivity. Qed.

(** So in the running application every primary-button drag on a grip of a
    page of the scene raises. *)
Lemma grip_drag_raises (es : list event) (i : nat) (g : SizeGrip) (ev : QMouseEvent) :
  let self := snd (run es BrowserCanvasApp_init) in
  i ∈ scene self ->
  is_Some (heap self !! i) ->
  buttons ev = LeftButton ->
  step (GripDrag i g ev) self = (Raises AttributeError, self).
Proof.
  intros self Hin [it Hit] Hb. simpl.
  destruct (decide (i ∈ scene self)); [|contradiction].
  unfold on_item. rewrite Hit.
  rewrite mouseMoveEvent_no_target; [|  | exact Hb].
  - rewrite list_insert_id by exact Hit. destruct self; reflexivity.
  - exact (Forall_lookup_1 _ _ _ _ (run_tree_as_built es) Hit).
Qed.

(** * Further properties of the code *)

(** ** RefreshSettingsDialog: what the field can hold *)

Lemma fits_int_range (z : Z) : INT_MIN <= z <= INT_MAX -> fits_int z = true.
Proof. apply fits_int_spec. Qed.

Lemma bound_bound (lo hi v : Z) :
  lo <= hi -> bound lo hi (bound lo hi v) = bound lo hi v.
Proof. unfold bound. lia. Qed.

Lemma RefreshSettingsDialog_init_fits (seed : Z) :
  INT_MIN <= seed <= INT_MAX ->
  RefreshSettingsDialog_init seed =
    Returns {| spin_box := {| minimum := 0; maximum := 3600;
                              value := bound 0 3600 seed |} |}.
Proof.
  intros H. unfold RefreshSettingsDialog_init, setValue.
  rewrite (fits_int_range _ H). reflexivity.
Qed.

Lemma edits_value (es : list Z) (d : RefreshSettingsDialog) :
  minimum (spin_box d) = 0 -> maximum (spin_box d) = 3600 ->
  0 <= get_interval d <= 3600 ->
  get_interval (foldl (fun d v => edit v d) d es) =
    bound 0 3600 (default (get_interval d) (last es)).
Proof.
  revert d. induction es as [|v vs IH]; intros d Hmin Hmax Hval.
  - simpl. symmetry. apply bound_id, Hval.
  - simpl foldl. rewrite IH.
    + unfold edit, get_interval at 1. simpl. rewrite Hmin, Hmax.
      rewrite last_cons. destruct (last vs) as [x|]; simpl; [reflexivity|].
      apply bound_bound. lia.
    + exact Hmin.
    + exact Hmax.
    + unfold edit, get_interval. simpl. rewrite Hmin, Hmax.
      apply bound_range. lia.
Qed.

Lemma exec_final_value (seed : Z) (u : session) :
  get_interval
    (snd (exec_ u {| spin_box := {| minimum := 0; maximum := 3600;
                                    value := bound 0 3600 seed |} |}))
  = final_value seed (edits u).
Proof.
  unfold exec_. simpl. rewrite edits_value; try reflexivity.
  - unfold get_interval, final_value. simpl.
    destruct (last (edits u)) as [x|]; simpl; [reflexivity|].
    apply bound_bound. lia.
  - unfold get_interval. simpl. apply bound_range. lia.
Qed.

Lemma final_value_range (seed : Z) (es : list Z) :
  0 <= final_value seed es <= 3600.
Proof. unfold final_value. apply bound_range. lia. Qed.

(** X1: a dialog built on any seed a C++ int can hold opens with the seed
    taken into [0, 3600] (a seed above 3600 shows 3600, a negative one 0).
    Whatever the user then does in it, [get_interval] stays in [0, 3600];
    and when the values the user enters are values of that range,
    [get_interval] gives the last one entered, or the opening value when
    nothing is entered. *)
Theorem dialog_stays_in_range (seed : Z) (u : session) :
  INT_MIN <= seed <= INT_MAX ->
  exists dialog,
    RefreshSettingsDialog_init seed = Returns dialog /\
    get_interval dialog = bound 0 3600 seed /\
    0 <= get_interval (snd (exec_ u dialog)) <= 3600 /\
    (Forall (fun v => 0 <= v <= 3600) (edits u) ->
     get_interval (snd (exec_ u dialog)) =
       default (bound 0 3600 seed) (last (edits u))).
Proof.
  intros H. eexists. split; [apply RefreshSettingsDialog_init_fits, H|].
  split; [reflexivity|]. rewrite exec_final_value.
  split; [apply final_value_range|].
  intros Hall. unfold final_value.
  destruct (last (edits u)) as [x|] eqn:E; simpl; [|reflexivity].
  apply bound_id. apply last_Some_elem_of in E.
  rewrite Forall_forall in Hall. exact (Hall x E).
Qed.

Lemma dialog_stays_in_range_witness :
  let u := {| edits := [7; 0; 1800]; result := Accepted |} in
  exists dialog,
    RefreshSettingsDialog_init 5000 = Returns dialog /\
    get_interval dialog = 3600 /\
    0 <= get_interval (snd (exec_ u dialog)) <= 3600 /\
    get_interval (snd (exec_ u dialog)) = 1800.
Proof.
  intros u.
  destruct (dialog_stays_in_range 5000 u) as (d & Hd & Hopen & Hr & Hlast).
  - unfold INT_MIN, INT_MAX. lia.
  - exists d. split; [exact Hd|]. split; [exact Hopen|]. split; [exact Hr|].
    apply Hlast. repeat (constructor; [lia|]). constructor.
Defined.

(** ** show_refresh_settings: what OK applies *)

(** X2: when the settings dialog of the current page is closed with OK,
    [show_refresh_settings] returns and gives that page the dialog's value
    [v] as [refresh_interval], with its timer started anew at [v] seconds,
    or stopped when [v = 0]; every other item, the scene, [current_page] and
    the URL field stay as they are.  OK without an edit on an interval
    outside [0, 3600] therefore changes it to the nearest bound. *)
Theorem accept_applies_interval
  (u : session) (i : nat) (it : WebPageItem) (self : BrowserCanvasApp) :
  current_page self = Some i ->
  heap self !! i = Some it ->
  INT_MIN <= refresh_interval it <= INT_MAX ->
  result u = Accepted ->
  let v := final_value (refresh_interval it) (edits u) in
  show_refresh_settings u self =
    (Returns tt,
     set_heap
       (<[i := set_timer
                 (if 0 <? v
                  then {| state := Active 0; interval := v * 1000 |}
                  else {| state := Inactive;
                          interval := interval (refresh_timer it) |})
                 (set_interval v it)]> (heap self))
       self).
Proof.
  intros Hcur Hit Hfit Hres v. unfold show_refresh_settings.
  rewrite Hcur, Hit, (RefreshSettingsDialog_init_fits _ Hfit).
  pose proof (exec_final_value (refresh_interval it) u) as Hv.
  unfold exec_ in *. rewrite Hres. simpl in Hv. cbv iota beta.
  rewrite Hv. fold v. unfold on_item. rewrite Hit.
  rewrite set_refresh_interval_in_range; [reflexivity|].
  pose proof (final_value_range (refresh_interval it) (edits u)). fold v in H.
  lia.
Qed.

Lemma accept_applies_interval_witness :
  let it := snd (set_refresh_interval 5000 (WebPageItem_init "https://example.com")) in
  let self := {| heap := [WebPageItem_init "http://localhost"; it];
                 scene := [0%nat; 1%nat]; current_page := Some 1%nat;
                 url_input := EmptyString |} in
  let u := {| edits := []; result := Accepted |} in
  refresh_interval it = 5000 /\
  show_refresh_settings u self =
    (Returns tt,
     set_heap
       (<[1%nat := set_timer {| state := Active 0; interval := 3600 * 1000 |}
                     (set_interval 3600 it)]> (heap self))
       self).
Proof.
  intros it self u. split; [reflexivity|].
  apply (accept_applies_interval u 1 it self); try reflexivity.
  simpl. unfold INT_MIN, INT_MAX. lia.
Defined.

(** ** set_refresh_interval: beyond the range of the timer *)

(** X3: for every [seconds] above 2147483 the call raises [OverflowError]
    half done: [seconds] is already stored as [refresh_interval] and the
    timer is already stopped, so the item never refreshes although its
    interval is positive. *)
Theorem set_refresh_interval_overflow (seconds : Z) (self : WebPageItem) :
  2147483 < seconds ->
  let (r, self') := set_refresh_interval seconds self in
  r = Raises OverflowError /\
  refresh_interval self' = seconds /\
  never_refreshes self' /\
  self' = set_timer {| state := Inactive;
                       interval := interval (refresh_timer self) |}
            (set_interval seconds self).
Proof.
  intros H. rewrite set_refresh_interval_eq. cbv zeta.
  destruct (Z.ltb_spec 0 seconds) as [_|]; [|lia].
  destruct (fits_int (seconds * 1000)) eqn:Hf.
  - apply fits_int_spec in Hf. unfold INT_MAX in Hf. lia.
  - split; [reflexivity|]. split; [reflexivity|].
    split; [|reflexivity]. apply inactive_never_refreshes. reflexivity.
Qed.

Lemma set_refresh_interval_overflow_witness :
  let self := snd (set_refresh_interval 5 (WebPageItem_init "https://example.com")) in
  let (r, self') := set_refresh_interval 3000000 self in
  r = Raises OverflowError /\
  refresh_interval self' = 3000000 /\
  never_refreshes self' /\
  self' = set_timer {| state := Inactive;
                       interval := interval (refresh_timer self) |}
            (set_interval 3000000 self).
Proof.
  intros self. apply (set_refresh_interval_overflow 3000000 self). lia.
Defined.

(** ** refresh_page and "Refresh Now" *)

Lemma elapse_refresh_page (ms : Z) (it : WebPageItem) :
  elapse ms (refresh_page it) = refresh_page (elapse ms it).
Proof.
  unfold elapse. simpl.
  destruct (advance ms (refresh_timer it)) as [n t].
  rewrite !iter_refresh_page. unfold refresh_page, set_web_view, reload.
  simpl. rewrite Nat.add_succ_r. reflexivity.
Qed.

(** X4: "Refresh Now" on a page of the scene reloads that page once and
    makes it the current page; no other item changes, and the page's timer
    is not touched, so the automatic refreshes come when they would have
    come without the manual one. *)
Theorem refresh_now_reloads_once
  (i : nat) (it : WebPageItem) (self : BrowserCanvasApp) :
  i ∈ scene self ->
  heap self !! i = Some it ->
  show_context_menu (Some i) RefreshNow self =
    (Returns tt,
     set_heap (<[i := refresh_page it]> (heap self))
       (set_current_page (Some i) self)) /\
  reloads (web_view (refresh_page it)) = S (reloads (web_view it)) /\
  refresh_timer (refresh_page it) = refresh_timer it /\
  forall ms, elapse ms (refresh_page it) = refresh_page (elapse ms it).
Proof.
  intros Hin Hit. split; [|split; [reflexivity|split; [reflexivity|]]].
  - unfold show_context_menu. rewrite itemAt_elem by exact Hin.
    unfold on_item. simpl. rewrite Hit. reflexivity.
  - intros ms. apply elapse_refresh_page.
Qed.

Lemma refresh_now_reloads_once_witness :
  let it := snd (set_refresh_interval 5 (WebPageItem_init "https://example.com")) in
  let self := {| heap := [WebPageItem_init "http://localhost"; it];
                 scene := [0%nat; 1%nat]; current_page := None;
                 url_input := EmptyString |} in
  show_context_menu (Some 1%nat) RefreshNow self =
    (Returns tt,
     set_heap (<[1%nat := refresh_page it]> (heap self))
       (set_current_page (Some 1%nat) self)) /\
  reloads (web_view (refresh_page it)) = S (reloads (web_view it)) /\
  refresh_timer (refresh_page it) = refresh_timer it /\
  forall ms, elapse ms (refresh_page it) = refresh_page (elapse ms it).
Proof.
  intros it self. apply (refresh_now_reloads_once 1 it self).
  - apply elem_of_cons. right. apply list_elem_of_singleton. reflexivity.
  - reflexivity.
Defined.

(** ** "Close Page" *)

Lemma itemAt_miss (hit : option nat) (pick : choice) (self : BrowserCanvasApp) :
  itemAt hit (scene self) = None ->
  show_context_menu hit pick self = (Returns tt, self).
Proof. intros H. unfold show_context_menu. rewrite H. reflexivity. Qed.

(** X5: "Close Page" takes exactly the clicked page out of the scene, the
    others stay; and a page once closed is out of reach of the context menu:
    whatever entry is picked for it afterwards, nothing happens. *)
Theorem close_page_removes_only_it (i : nat) (self : BrowserCanvasApp) :
  i ∈ scene self ->
  let self' := snd (show_context_menu (Some i) ClosePage self) in
  (forall j, j ∈ scene self' <-> j ∈ scene self /\ j <> i) /\
  (forall pick, show_context_menu (Some i) pick self' = (Returns tt, self')).
Proof.
  intros Hin. unfold show_context_menu at 1.
  rewrite itemAt_elem by exact Hin. simpl. split.
  - intros j. unfold removeItem. rewrite list_elem_of_filter. tauto.
  - intros pick. apply itemAt_miss. simpl.
    destruct (decide (i ∈ removeItem i (scene self))) as [Hi|_];
      [|reflexivity].
    exfalso. exact (removeItem_not_elem _ _ Hi).
Qed.

Lemma close_page_removes_only_it_witness :
  let self := {| heap := [WebPageItem_init "http://localhost";
                          WebPageItem_init "https://example.com"];
                 scene := [0%nat; 1%nat]; current_page := None;
                 url_input := EmptyString |} in
  let self' := snd (show_context_menu (Some 1%nat) ClosePage self) in
  (forall j, j ∈ scene self' <-> j ∈ scene self /\ j <> 1%nat) /\
  (forall pick, show_context_menu (Some 1%nat) pick self' = (Returns tt, self')).
Proof.
  intros self. apply (close_page_removes_only_it 1 self).
  apply elem_of_cons. right. apply list_elem_of_singleton. reflexivity.
Defined.

(** ** add_new_page and Canvas.add_web_page *)

Lemma add_new_page_eq (rnd : QPoint) (self : BrowserCanvasApp) :
  add_new_page rnd self =
    {| heap := heap self ++
                 [setPos rnd (WebPageItem_init (submitted_url (url_input self)))];
       scene := addItem (length (heap self)) (scene self);
       current_page := current_page self;
       url_input := EmptyString |}.
Proof.
  unfold add_new_page. fold (submitted_url (url_input self)).
  rewrite add_web_page_eq. reflexivity.
Qed.


Lemma addItem_fresh (n : nat) (sc : list nat) :
  Forall (fun i => (i < n)%nat) sc -> addItem n sc = sc ++ [n].
Proof.
  intros Hall. unfold addItem. destruct (decide (n ∈ sc)) as [Hin|_];
    [|reflexivity].
  rewrite Forall_forall in Hall. specialize (Hall n Hin). lia.
Qed.

(** X6: a text that already starts with "http://" or "https://" is handed
    to the canvas as it is: [add_new_page] creates a page item whose stored
    URL is exactly that text ("http://" is not turned into "https://"), puts
    it into the scene, clears the field and leaves [current_page] alone. *)
Theorem add_new_page_keeps_scheme (rnd : QPoint) (self : BrowserCanvasApp) :
  startswith (url_input self) "http://" "https://" = true ->
  let self' := add_new_page rnd self in
  heap self' = heap self ++ [setPos rnd (WebPageItem_init (url_input self))] /\
  (url <$> heap self' !! length (heap self)) = Some (url_input self) /\
  length (heap self) ∈ scene self' /\
  url_input self' = EmptyString /\
  current_page self' = current_page self.
Proof.
  intros Hs. cbv zeta. rewrite add_new_page_eq. simpl.
  unfold submitted_url. rewrite Hs. simpl.
  split; [reflexivity|].
  split; [rewrite list_lookup_middle by reflexivity; reflexivity|].
  split; [apply addItem_elem|].
  split; reflexivity.
Qed.

Lemma add_new_page_keeps_scheme_witness :
  let self := set_url_input "http://localhost:8080/index.html" BrowserCanvasApp_init in
  let self' := add_new_page (7, 9) self in
  heap self' =
    heap self ++ [setPos (7, 9) (WebPageItem_init "http://localhost:8080/index.html")] /\
  (url <$> heap self' !! 0%nat) = Some "http://localhost:8080/index.html"%string /\
  length (heap self) ∈ scene self' /\
  url_input self' = EmptyString /\
  current_page self' = current_page self.
Proof.
  intros self. apply (add_new_page_keeps_scheme (7, 9) self). reflexivity.
Defined.

(** X7: on an application whose scene lists existing items, two calls of
    [Canvas.add_web_page] in a row return two different new identities, put
    both at the end of the scene in that order, and append the two items to
    the ones there were; creating the second does not touch the first, and
    the items there were stay as they are. *)
Theorem add_web_page_twice
  (u1 u2 : string) (r1 r2 : QPoint) (self : BrowserCanvasApp) :
  Forall (fun i => (i < length (heap self))%nat) (scene self) ->
  let (p1, self1) := add_web_page u1 r1 self in
  let (p2, self2) := add_web_page u2 r2 self1 in
  p1 <> p2 /\
  (p1 ∉ scene self) /\ (p2 ∉ scene self) /\
  scene self2 = scene self ++ [p1; p2] /\
  heap self2 =
    heap self ++ [setPos r1 (WebPageItem_init u1); setPos r2 (WebPageItem_init u2)].
Proof.
  intros Hall. rewrite !add_web_page_eq. simpl.
  rewrite (addItem_fresh _ _ Hall).
  rewrite length_app. simpl.
  rewrite addItem_fresh.
  - rewrite <- !app_assoc. simpl.
    rewrite Forall_forall in Hall.
    split; [lia|].
    split; [intros Hin; specialize (Hall _ Hin); lia|].
    split; [intros Hin; specialize (Hall _ Hin); lia|].
    split; reflexivity.
  - apply Forall_app. split.
    + eapply Forall_impl; [exact Hall|]. intros i Hi. simpl in Hi. lia.
    + constructor; [lia | constructor].
Qed.

Lemma add_web_page_twice_witness :
  let self := snd (add_web_page "https://example.com" (1, 2) BrowserCanvasApp_init) in
  let (p1, self1) := add_web_page "http://a" (3, 4) self in
  let (p2, self2) := add_web_page "http://b" (3, 4) self1 in
  p1 <> p2 /\
  (p1 ∉ scene self) /\ (p2 ∉ scene self) /\
  scene self2 = scene self ++ [p1; p2] /\
  heap self2 =
    heap self ++ [setPos (3, 4) (WebPageItem_init "http://a");
                  setPos (3, 4) (WebPageItem_init "http://b")].
Proof.
  intros self. apply (add_web_page_twice "http://a" "http://b" (3, 4) (3, 4) self).
  repeat constructor.
Defined.

(** ** What every run of the application keeps *)

Lemma on_item_frame (i : nat) (c : Py WebPageItem unit) (self : BrowserCanvasApp) :
  let self' := snd (on_item i c self) in
  scene self' = scene self /\
  current_page self' = current_page self /\
  url_input self' = url_input self /\
  length (heap self') = length (heap self).
Proof.
  unfold on_item. destruct (heap self !! i) as [it|]; [|simpl; tauto].
  destruct (c it) as [r it']. simpl. rewrite length_insert. tauto.
Qed.

Lemma show_refresh_settings_frame (u : session) (self : BrowserCanvasApp) :
  let self' := snd (show_refresh_settings u self) in
  scene self' = scene self /\
  current_page self' = current_page self /\
  url_input self' = url_input self /\
  length (heap self') = length (heap self).
Proof.
  unfold show_refresh_settings.
  destruct (current_page self) as [i|] eqn:Hc; [|simpl; tauto].
  destruct (heap self !! i) as [it|]; [|simpl; tauto].
  destruct (RefreshSettingsDialog_init (refresh_interval it)) as [d|e];
    [|simpl; tauto].
  destruct (exec_ u d) as [[|] d']; [simpl; tauto|].
  pose proof (on_item_frame i (set_refresh_interval (get_interval d')) self) as H.
  cbv zeta in *. rewrite Hc in H. exact H.
Qed.

Lemma refs_ok_frame (self self' : BrowserCanvasApp) :
  scene self' = scene self /\
  current_page self' = current_page self /\
  url_input self' = url_input self /\
  length (heap self') = length (heap self) ->
  refs_ok self -> refs_ok self'.
Proof.
  intros (Hs & Hc & _ & Hl). unfold refs_ok. rewrite Hs, Hc, Hl. tauto.
Qed.

Lemma itemAt_Some (hit : option nat) (sc : list nat) (i : nat) :
  itemAt hit sc = Some i -> i ∈ sc.
Proof.
  unfold itemAt. destruct hit as [j|]; simpl; [|discriminate].
  destruct (decide (j ∈ sc)) as [Hin|]; [|discriminate].
  intros [= <-]. exact Hin.
Qed.

Lemma step_refs_ok (e : event) (self : BrowserCanvasApp) :
  refs_ok self -> refs_ok (snd (step e self)).
Proof.
  intros Hok. pose proof Hok as (Hnd & Hall & Hcur).
  destruct e as [text|rnd|hit pick|i g ev|ms]; simpl.
  - exact Hok.
  - rewrite add_new_page_eq. unfold refs_ok. simpl.
    rewrite (addItem_fresh _ _ Hall), length_app. simpl.
    split; [|split].
    + apply NoDup_app. split; [exact Hnd|]. split; [|apply NoDup_singleton].
      intros j Hj Hj'. apply list_elem_of_singleton in Hj'.
      rewrite Forall_forall in Hall. specialize (Hall j Hj). lia.
    + apply Forall_app. split.
      * eapply Forall_impl; [exact Hall|]. intros j Hj. simpl in Hj. lia.
      * constructor; [lia | constructor].
    + intros j Hj. specialize (Hcur j Hj). lia.
  - unfold show_context_menu.
    destruct (itemAt hit (scene self)) as [item|] eqn:Hhit; [|exact Hok].
    apply itemAt_Some in Hhit.
    assert (Hitem : (item < length (heap self))%nat).
    { rewrite Forall_forall in Hall. exact (Hall item Hhit). }
    assert (Hok1 : refs_ok (set_current_page (Some item) self)).
    { unfold refs_ok. simpl. split; [exact Hnd|]. split; [exact Hall|].
      intros j [= <-]. exact Hitem. }
    destruct pick as [|u| |].
    + eapply refs_ok_frame; [apply on_item_frame | exact Hok1].
    + eapply refs_ok_frame; [apply show_refresh_settings_frame | exact Hok1].
    + unfold refs_ok. simpl. split; [apply NoDup_filter, Hnd|]. split.
      * apply Forall_forall. intros j Hj.
        apply list_elem_of_filter in Hj. destruct Hj as [_ Hj].
        rewrite Forall_forall in Hall. exact (Hall j Hj).
      * intros j [= <-]. exact Hitem.
    + exact Hok1.
  - destruct (decide (i ∈ scene self)); [|exact Hok].
    eapply refs_ok_frame; [apply on_item_frame | exact Hok].
  - unfold refs_ok, tick. simpl. rewrite length_fmap. exact Hok.
Qed.

Lemma run_refs_ok (es : list event) (self : BrowserCanvasApp) :
  refs_ok self -> refs_ok (snd (run es self)).
Proof.
  revert self. induction es as [|e es IH]; intros self Hok.
  - exact Hok.
  - simpl. unfold mbind, Py_bind, bind.
    pose proof (step_refs_ok e self Hok) as Hstep.
    destruct (step e self) as [[[]|x] self']; simpl in *.
    + apply IH, Hstep.
    + exact Hstep.
Qed.

(** X8: after every series of events the references of the application are
    sound: the scene lists no item twice, every identity in the scene and
    the [current_page] denote an item that exists, so every page of the
    scene and the current page can be looked up. *)
Theorem references_stay_sound (es : list event) :
  let self := snd (run es BrowserCanvasApp_init) in
  refs_ok self /\
  (forall i, i ∈ scene self -> is_Some (heap self !! i)) /\
  (forall i, current_page self = Some i -> is_Some (heap self !! i)).
Proof.
  intros self.
  assert (Hok : refs_ok self).
  { apply run_refs_ok. split; [constructor|]. split; [constructor|].
    intros i [=]. }
  split; [exact Hok|]. destruct Hok as (_ & Hall & Hcur). split.
  - intros i Hi. apply lookup_lt_is_Some.
    rewrite Forall_forall in Hall. exact (Hall i Hi).
  - intros i Hi. apply lookup_lt_is_Some. exact (Hcur i Hi).
Qed.

Lemma reachable_refs_ok (es : list event) :
  refs_ok (snd (run es BrowserCanvasApp_init)).
Proof.
  apply run_refs_ok. split; [constructor|]. split; [constructor|].
  intros i [=].
Qed.

(** Items come into the running application through [add_new_page] only. *)
Section RunPreservation.

Variable P : WebPageItem -> Prop.
Hypothesis P_new : forall text rnd,
  P (setPos rnd (WebPageItem_init (submitted_url text))).
Hypothesis P_refresh_page : forall it, P it -> P (refresh_page it).
Hypothesis P_set_refresh_interval : forall s it,
  0 <= s <= 3600 -> P it -> P (snd (set_refresh_interval s it)).
Hypothesis P_elapse : forall ms it, P it -> P (elapse ms it).
Hypothesis P_mouseMoveEvent : forall g ev it,
  P it -> P (snd (mouseMoveEvent g ev it)).



End RunPreservation.



Lemma unchanged_by_mouseMoveEvent (P : WebPageItem -> Prop) :
  (forall w r it, P it -> P (setGeometry w r it)) ->
  forall g ev it, P it -> P (snd (mouseMoveEvent g ev it)).
Proof.
  intros HP g ev it H. unfold mouseMoveEvent.
  destruct (buttons ev =? LeftButton); [|exact H].
  destruct (widget_parent it (Grip (corner g)) ≫= widget_parent it);
    [apply HP|]; exact H.
Qed.


(** ** The timers of the running application *)

Lemma timed_ok_init (u : string) : timed_ok (WebPageItem_init u).
Proof. split; [apply item_inv_init | exact I]. Qed.

Lemma timed_ok_set_refresh_interval (s : Z) (it : WebPageItem) :
  0 <= s <= 3600 -> timed_ok it -> timed_ok (snd (set_refresh_interval s it)).
Proof.
  intros Hs [Hinv _]. split; [apply item_inv_set_refresh_interval; assumption|].
  rewrite set_refresh_interval_in_range by lia. unfold timer_in_step. simpl.
  destruct (Z.ltb_spec 0 s); simpl; [lia | exact I].
Qed.

Lemma timed_ok_elapse (ms : Z) (it : WebPageItem) :
  timed_ok it -> timed_ok (elapse ms it).
Proof.
  intros [Hinv Hstep]. split; [apply item_inv_elapse, Hinv|].
  unfold timer_in_step in *.
  rewrite elapse_timer, elapse_refresh_interval. unfold advance.
  destruct (state (refresh_timer it)) as [|e] eqn:E; simpl.
  - rewrite E. exact I.
  - destruct Hstep as [Hp He].
    destruct (Z.ltb_spec 0 (interval (refresh_timer it))) as [Hpos|]; [|lia].
    simpl. split; [exact Hp|]. apply Z.mod_pos_bound. exact Hpos.
Qed.

Lemma reachable_timed_ok (es : list event) :
  Forall timed_ok (heap (snd (run es BrowserCanvasApp_init))).
Proof.
  apply (run_preserves timed_ok timed_ok_init).
  - intros p it H. exact H.
  - intros it H. exact H.
  - exact timed_ok_set_refresh_interval.
  - exact timed_ok_elapse.
  - apply unchanged_by_mouseMoveEvent. intros w r it H. exact H.
  - constructor.
Qed.

(** X10: after every series of events, every page item, in the scene or
    closed, keeps its interval in [0, 3600] and its timer in step with it: a
    running timer has the period [refresh_interval * 1000] ms and is inside
    its current period.  So an item with a positive interval is reloaded at
    least once in each [refresh_interval] seconds, and an item with interval
    0 is never reloaded by a timer. *)
Theorem timers_stay_in_step (es : list event) (i : nat) (it : WebPageItem) :
  heap (snd (run es BrowserCanvasApp_init)) !! i = Some it ->
  item_inv it /\ timer_in_step it /\
  (0 < refresh_interval it ->
   (reloads (web_view it) <
    reloads (web_view (elapse (refresh_interval it * 1000) it)))%nat) /\
  (refresh_interval it = 0 -> never_refreshes it).
Proof.
  intros Hit.
  destruct (Forall_lookup_1 _ _ _ _ (reachable_timed_ok es) Hit) as [Hinv Hstep].
  split; [exact Hinv|]. split; [exact Hstep|].
  destruct Hinv as [Hrange Hrun]. split.
  - intros Hpos. apply Hrun in Hpos. unfold timer_in_step in Hstep.
    rewrite elapse_reloads. unfold advance. unfold isActive in Hpos.
    destruct (state (refresh_timer it)) as [|e]; [discriminate|].
    destruct Hstep as [Hp He]. rewrite <- Hp.
    destruct (Z.ltb_spec 0 (interval (refresh_timer it))) as [Hlt|]; [|lia].
    simpl.
    assert (1 <= (e + interval (refresh_timer it)) / interval (refresh_timer it))
      by (apply Z.div_le_lower_bound; lia).
    lia.
  - intros Hzero. apply inactive_never_refreshes.
    apply not_true_is_false. intros E. apply Hrun in E. lia.
Qed.

Lemma timers_stay_in_step_witness :
  let es := [TypeUrl "example.com"; AddNewPage (3, 4);
             ContextMenu (Some 0%nat)
               (AutoRefreshSettings {| edits := [5]; result := Accepted |});
             Elapse 1234; ContextMenu (Some 0%nat) ClosePage; Elapse 7000] in
  exists it,
    heap (snd (run es BrowserCanvasApp_init)) !! 0%nat = Some it /\
    refresh_timer it = {| state := Active 3234; interval := 5000 |} /\
    reloads (web_view it) = 1%nat /\
    item_inv it /\ timer_in_step it /\
    (0 < refresh_interval it ->
     (reloads (web_view it) <
      reloads (web_view (elapse (refresh_interval it * 1000) it)))%nat) /\
    (refresh_interval it = 0 -> never_refreshes it).
Proof.
  intros es. eexists. split; [reflexivity|].
  split; [reflexivity|]. split; [reflexivity|].
  apply (timers_stay_in_step es 0). reflexivity.
Defined.

(** ** Moves of the mouse over a grip *)

(** X11: in the running application a move of the mouse over a grip never
    resizes a page.  After every series of events, a move over a grip of a
    page of the scene with exactly the primary button held raises
    [AttributeError] and leaves the application as it was, and a move with
    any other buttons held returns and leaves the application as it was. *)
Theorem grip_moves_change_nothing
  (es : list event) (i : nat) (g : SizeGrip) (ev : QMouseEvent) :
  let self := snd (run es BrowserCanvasApp_init) in
  (i ∈ scene self -> buttons ev = LeftButton ->
   step (GripDrag i g ev) self = (Raises AttributeError, self)) /\
  (buttons ev <> LeftButton ->
   step (GripDrag i g ev) self = (Returns tt, self)).
Proof.
  intros self. split.
  - intros Hin Hb. apply grip_drag_raises; [exact Hin | | exact Hb].
    apply lookup_lt_is_Some.
    destruct (reachable_refs_ok es) as (_ & Hall & _).
    rewrite Forall_forall in Hall. exact (Hall i Hin).
  - intros Hb. simpl. destruct (decide (i ∈ scene self)); [|reflexivity].
    unfold on_item. destruct (heap self !! i) as [it|] eqn:Hit; [|reflexivity].
    unfold mouseMoveEvent. apply Z.eqb_neq in Hb. rewrite Hb.
    rewrite list_insert_id by exact Hit. destruct self; reflexivity.
Qed.

Lemma grip_moves_change_nothing_witness :
  let es := [TypeUrl "example.com"; AddNewPage (3, 4); Elapse 10] in
  let self := snd (run es BrowserCanvasApp_init) in
  let g := {| corner := TopLeftCorner |} in
  step (GripDrag 0 g {| buttons := LeftButton; globalPos := (20, 30) |}) self
    = (Raises AttributeError, self) /\
  step (GripDrag 0 g {| buttons := NoButton; globalPos := (20, 30) |}) self
    = (Returns tt, self) /\
  step (GripDrag 0 g {| buttons := 3; globalPos := (20, 30) |}) self
    = (Returns tt, self).
Proof.
  intros es self g. split; [|split].
  - apply (grip_moves_change_nothing es 0 g
             {| buttons := LeftButton; globalPos := (20, 30) |}).
    + apply list_elem_of_singleton. reflexivity.
    + reflexivity.
  - apply (grip_moves_change_nothing es 0 g
             {| buttons := NoButton; globalPos := (20, 30) |}).
    discriminate.
  - apply (grip_moves_change_nothing es 0 g
             {| buttons := 3; globalPos := (20, 30) |}).
    discriminate.
Defined.

(** ** How a run of the application can end *)

Lemma on_item_modify_returns (i : nat) (f : WebPageItem -> WebPageItem)
  (self : BrowserCanvasApp) :
  fst (on_item i (modify f) self) = Returns tt.
Proof. unfold on_item. destruct (heap self !! i); reflexivity. Qed.

Lemma show_refresh_settings_returns (u : session) (self : BrowserCanvasApp) :
  Forall item_inv (heap self) ->
  fst (show_refresh_settings u self) = Returns tt.
Proof.
  intros Hall. unfold show_refresh_settings.
  destruct (current_page self) as [i|]; [|reflexivity].
  destruct (heap self !! i) as [it|] eqn:Hit; [|reflexivity].
  destruct (Forall_lookup_1 _ _ _ _ Hall Hit) as [Hrange _].
  rewrite RefreshSettingsDialog_init_fits by (unfold INT_MIN, INT_MAX; lia).
  pose proof (exec_final_value (refresh_interval it) u) as Hv.
  pose proof (final_value_range (refresh_interval it) (edits u)) as Hr.
  destruct (exec_ u _) as [[|] d']; [reflexivity|]. simpl in Hv.
  unfold on_item. rewrite Hit.
  pose proof (set_refresh_interval_returns (get_interval d') it) as Hret.
  destruct (set_refresh_interval (get_interval d') it) as [r it'].
  simpl in *. apply Hret. rewrite Hv. exact Hr.
Qed.

Lemma step_outcome (e : event) (self : BrowserCanvasApp) :
  Forall item_inv (heap self) ->
  fst (step e self) = Returns tt \/
  (primary_drag e = true /\ fst (step e self) = Raises AttributeError).
Proof.
  intros Hall. destruct e as [text|rnd|hit pick|i g ev|ms];
    try (left; reflexivity).
  - left. simpl. unfold show_context_menu.
    destruct (itemAt hit (scene self)) as [item|]; [|reflexivity].
    destruct pick as [|u| |]; try reflexivity.
    + apply on_item_modify_returns.
    + apply show_refresh_settings_returns. exact Hall.
  - simpl. destruct (decide (i ∈ scene self)); [|left; reflexivity].
    unfold on_item. destruct (heap self !! i) as [it|]; [|left; reflexivity].
    unfold mouseMoveEvent. destruct (buttons ev =? LeftButton);
      [|left; reflexivity].
    destruct (widget_parent it (Grip (corner g)) ≫= widget_parent it);
      [left; reflexivity | right; split; reflexivity].
Qed.

Lemma run_outcome (es : list event) (self : BrowserCanvasApp) :
  Forall item_inv (heap self) ->
  (fst (run es self) = Returns tt \/ fst (run es self) = Raises AttributeError) /\
  (Forall (fun e => primary_drag e = false) es -> fst (run es self) = Returns tt).
Proof.
  revert self. induction es as [|e es IH]; intros self Hall.
  - split; [left; reflexivity | intros _; reflexivity].
  - simpl. unfold mbind, Py_bind, bind.
    pose proof (step_outcome e self Hall) as Hout.
    pose proof (step_preserves item_inv item_inv_init item_inv_setPos
                  item_inv_refresh_page item_inv_set_refresh_interval
                  item_inv_elapse item_inv_mouseMoveEvent e self Hall) as Hnext.
    destruct (step e self) as [[[]|x] self']; simpl in *.
    + destruct (IH self' Hnext) as [Hany Hnone]. split; [exact Hany|].
      intros Hes. apply Hnone. apply Forall_inv_tail in Hes. exact Hes.
    + destruct Hout as [Hr|[Hd Hr]]; [discriminate Hr|].
      injection Hr as ->. split; [right; reflexivity|].
      intros Hes. apply Forall_inv in Hes. congruence.
Qed.

(** X12: the only way a run of the application can fail is the
    [AttributeError] of a grip dragged with the primary button: no series of
    events makes the timer or the spin box overflow, and a series without
    such a drag is handled to its end without an exception. *)
Theorem run_ends (es : list event) :
  (fst (run es BrowserCanvasApp_init) = Returns tt \/
   fst (run es BrowserCanvasApp_init) = Raises AttributeError) /\
  (Forall (fun e => primary_drag e = false) es ->
   fst (run es BrowserCanvasApp_init) = Returns tt).
Proof. apply run_outcome. constructor. Qed.

Lemma run_ends_witness :
  let es := [TypeUrl ""; AddNewPage (3, 4);
             ContextMenu (Some 0%nat)
               (AutoRefreshSettings {| edits := [99999]; result := Accepted |});
             GripDrag 0 {| corner := TopLeftCorner |}
               {| buttons := RightButton; globalPos := (1, 1) |};
             Elapse 7200000; ContextMenu (Some 0%nat) RefreshNow;
             ContextMenu (Some 0%nat) ClosePage; ContextMenu (Some 0%nat) RefreshNow] in
  fst (run es BrowserCanvasApp_init) = Returns tt.
Proof.
  intros es. apply (proj2 (run_ends es)).
  repeat constructor.
Defined.

(** ** The period starts anew with every call *)

(** X13: [set_refresh_interval] throws away the time already waited.  When
    it is called again with the same positive interval before the first
    period is over, no reload has happened yet and the item is back in the
    state right after the first call: the full interval has to pass again. *)
Theorem reapplying_restarts_period (s ms : Z) (self : WebPageItem) :
  0 < s <= 2147483 ->
  0 <= ms < s * 1000 ->
  let it := snd (set_refresh_interval s self) in
  reloads (web_view (elapse ms it)) = reloads (web_view self) /\
  refresh_timer (elapse ms it) = {| state := Active ms; interval := s * 1000 |} /\
  snd (set_refresh_interval s (elapse ms it)) = it.
Proof.
  intros Hs Hms. cbv zeta.
  rewrite set_refresh_interval_in_range by lia.
  destruct (Z.ltb_spec 0 s) as [_|]; [|lia].
  unfold elapse. simpl refresh_timer.
  rewrite advance_started by lia.
  rewrite Z.div_small, Z.mod_small by lia. simpl.
  split; [reflexivity|]. split; [reflexivity|].
  rewrite set_refresh_interval_in_range by lia.
  destruct (Z.ltb_spec 0 s) as [_|]; [|lia]. reflexivity.
Qed.

Lemma reapplying_restarts_period_witness :
  let self := refresh_page (WebPageItem_init "https://example.com") in
  let it := snd (set_refresh_interval 5 self) in
  reloads (web_view (elapse 4999 it)) = reloads (web_view self) /\
  refresh_timer (elapse 4999 it) = {| state := Active 4999; interval := 5 * 1000 |} /\
  snd (set_refresh_interval 5 (elapse 4999 it)) = it.
Proof.
  intros self it. apply (reapplying_restarts_period 5 4999 self); lia.
Defined.

(** ** A closed page is out of reach *)

Lemma on_item_lookup_ne (j i : nat) (c : Py WebPageItem unit) (self : BrowserCanvasApp) :
  j <> i -> heap (snd (on_item j c self)) !! i = heap self !! i.
Proof.
  intros Hne. unfold on_item. destruct (heap self !! j) as [it|]; [|reflexivity].
  destruct (c it) as [r it']. simpl. apply list_lookup_insert_ne, Hne.
Qed.

Lemma show_refresh_settings_lookup_ne (u : session) (j i : nat)
  (self : BrowserCanvasApp) :
  current_page self = Some j -> j <> i ->
  heap (snd (show_refresh_settings u self)) !! i = heap self !! i.
Proof.
  intros Hc Hne. unfold show_refresh_settings. rewrite Hc.
  destruct (heap self !! j) as [it|]; [|reflexivity].
  destruct (RefreshSettingsDialog_init (refresh_interval it)) as [d|e];
    [|reflexivity].
  destruct (exec_ u d) as [[|] d']; [reflexivity|].
  apply on_item_lookup_ne, Hne.
Qed.

Lemma same_settings_elapse (ms : Z) (it : WebPageItem) :
  same_settings it (elapse ms it).
Proof.
  unfold same_settings.
  rewrite elapse_refresh_interval, elapse_timer, advance_isActive.
  split; [|split; reflexivity].
  unfold elapse. destruct (advance ms (refresh_timer it)) as [n t].
  rewrite iter_refresh_page. reflexivity.
Qed.

Lemma step_out_of_reach (e : event) (i : nat) (it : WebPageItem)
  (self : BrowserCanvasApp) :
  refs_ok self -> i ∉ scene self -> heap self !! i = Some it ->
  (i ∉ scene (snd (step e self))) /\
  exists it', heap (snd (step e self)) !! i = Some it' /\ same_settings it it'.
Proof.
  intros (Hnd & Hall & Hcur) Hout Hit.
  assert (Hsame : same_settings it it) by (repeat split).
  destruct e as [text|rnd|hit pick|j g ev|ms].
  - simpl. split; [exact Hout|]. exists it. split; assumption.
  - change (snd (step (AddNewPage rnd) self)) with (add_new_page rnd self).
    rewrite add_new_page_eq. simpl. rewrite (addItem_fresh _ _ Hall).
    pose proof (lookup_lt_Some _ _ _ Hit) as Hlt. split.
    + intros Hin. apply elem_of_app in Hin. destruct Hin as [Hin|Hin];
        [exact (Hout Hin)|].
      apply list_elem_of_singleton in Hin. lia.
    + exists it. split; [|exact Hsame].
      rewrite lookup_app_l by exact Hlt. exact Hit.
  - simpl. unfold show_context_menu.
    destruct (itemAt hit (scene self)) as [item|] eqn:Hhit.
    2:{ split; [exact Hout|]. exists it. split; assumption. }
    apply itemAt_Some in Hhit.
    assert (Hne : item <> i) by (intros ->; exact (Hout Hhit)).
    destruct pick as [|u| |].
    + destruct (on_item_frame item (modify refresh_page)
                  (set_current_page (Some item) self)) as (Hs & _).
      rewrite Hs, on_item_lookup_ne by exact Hne. simpl.
      split; [exact Hout|]. exists it. split; assumption.
    + destruct (show_refresh_settings_frame u
                  (set_current_page (Some item) self)) as (Hs & _).
      rewrite Hs, (show_refresh_settings_lookup_ne u item i)
        by (reflexivity || exact Hne).
      simpl. split; [exact Hout|]. exists it. split; assumption.
    + simpl. split.
      * unfold removeItem. rewrite list_elem_of_filter. tauto.
      * exists it. split; assumption.
    + simpl. split; [exact Hout|]. exists it. split; assumption.
  - simpl. destruct (decide (j ∈ scene self)) as [Hj|].
    2:{ split; [exact Hout|]. exists it. split; assumption. }
    assert (Hne : j <> i) by (intros ->; exact (Hout Hj)).
    destruct (on_item_frame j (mouseMoveEvent g ev) self) as (Hs & _).
    rewrite Hs, on_item_lookup_ne by exact Hne.
    split; [exact Hout|]. exists it. split; assumption.
  - simpl. split; [exact Hout|]. exists (elapse ms it).
    split; [|apply same_settings_elapse].
    rewrite list_lookup_fmap, Hit. reflexivity.
Qed.

Lemma run_out_of_reach (es : list event) (i : nat) (it : WebPageItem)
  (self : BrowserCanvasApp) :
  refs_ok self -> i ∉ scene self -> heap self !! i = Some it ->
  (i ∉ scene (snd (run es self))) /\
  exists it', heap (snd (run es self)) !! i = Some it' /\ same_settings it it'.
Proof.
  revert self it. induction es as [|e es IH]; intros self it Hok Hout Hit.
  - simpl. split; [exact Hout|]. exists it. split; [exact Hit | repeat split].
  - simpl. unfold mbind, Py_bind, bind.
    pose proof (step_refs_ok e self Hok) as Hok'.
    destruct (step_out_of_reach e i it self Hok Hout Hit)
      as (Hout' & it1 & Hit1 & Hs1 & Hs2 & Hs3).
    destruct (step e self) as [[[]|x] self']; simpl in *.
    + destruct (IH self' it1 Hok' Hout' Hit1)
        as (Hout2 & it2 & Hit2 & Ht1 & Ht2 & Ht3).
      split; [exact Hout2|]. exists it2. split; [exact Hit2|].
      unfold same_settings. rewrite Ht1, Ht2, Ht3. repeat split; assumption.
    + split; [exact Hout'|]. exists it1. split; [exact Hit1|].
      repeat split; assumption.
Qed.

Lemma step_current_page_back (e : event) (i : nat) (self : BrowserCanvasApp) :
  i ∉ scene self ->
  current_page (snd (step e self)) = Some i -> current_page self = Some i.
Proof.
  intros Hout. destruct e as [text|rnd|hit pick|j g ev|ms].
  - intros H. exact H.
  - change (snd (step (AddNewPage rnd) self)) with (add_new_page rnd self).
    rewrite add_new_page_eq. intros H. exact H.
  - simpl. unfold show_context_menu.
    destruct (itemAt hit (scene self)) as [item|] eqn:Hhit; [|intros H; exact H].
    apply itemAt_Some in Hhit.
    assert (Hne : item <> i) by (intros ->; exact (Hout Hhit)).
    destruct pick as [|u| |].
    + destruct (on_item_frame item (modify refresh_page)
                  (set_current_page (Some item) self)) as (_ & Hc & _).
      rewrite Hc. simpl. congruence.
    + destruct (show_refresh_settings_frame u
                  (set_current_page (Some item) self)) as (_ & Hc & _).
      rewrite Hc. simpl. congruence.
    + simpl. congruence.
    + simpl. congruence.
  - simpl. destruct (decide (j ∈ scene self)); [|intros H; exact H].
    destruct (on_item_frame j (mouseMoveEvent g ev) self) as (_ & Hc & _).
    rewrite Hc. intros H. exact H.
  - intros H. exact H.
Qed.

Lemma run_current_page_back (es : list event) (i : nat) (it : WebPageItem)
  (self : BrowserCanvasApp) :
  refs_ok self -> i ∉ scene self -> heap self !! i = Some it ->
  current_page (snd (run es self)) = Some i -> current_page self = Some i.
Proof.
  revert self it. induction es as [|e es IH]; intros self it Hok Hout Hit.
  - intros H. exact H.
  - simpl. unfold mbind, Py_bind, bind.
    pose proof (step_refs_ok e self Hok) as Hok'.
    pose proof (step_current_page_back e i self Hout) as Hback.
    destruct (step_out_of_reach e i it self Hok Hout Hit)
      as (Hout' & it1 & Hit1 & _).
    destruct (step e self) as [[[]|x] self']; simpl in *.
    + intros H. apply Hback. exact (IH self' it1 Hok' Hout' Hit1 H).
    + exact Hback.
Qed.

(** X14: a page that is out of the scene stays out: whatever events follow,
    it never comes back into the scene.  And as long as it is still the
    current page, which is what keeps the closed item alive, it has been the
    current page all the time since and nothing the user did has reached it:
    its URL, its [refresh_interval] and whether its timer runs are what they
    were when it was closed. *)
Theorem closed_page_out_of_reach
  (es1 es2 : list event) (i : nat) (it : WebPageItem) :
  let self := snd (run es1 BrowserCanvasApp_init) in
  heap self !! i = Some it ->
  i ∉ scene self ->
  let self' := snd (run es2 self) in
  (i ∉ scene self') /\
  (current_page self' = Some i ->
   current_page self = Some i /\
   exists it', heap self' !! i = Some it' /\ same_settings it it').
Proof.
  intros self Hit Hout self'.
  pose proof (reachable_refs_ok es1) as Hok.
  destruct (run_out_of_reach es2 i it self Hok Hout Hit) as [Hout' Hsame].
  split; [exact Hout'|]. intros Hcur. split; [|exact Hsame].
  exact (run_current_page_back es2 i it self Hok Hout Hit Hcur).
Qed.

Lemma closed_page_out_of_reach_witness :
  let es1 := [TypeUrl "example.com"; AddNewPage (3, 4);
              ContextMenu (Some 0%nat)
                (AutoRefreshSettings {| edits := [5]; result := Accepted |});
              ContextMenu (Some 0%nat) ClosePage] in
  let es2 := [ContextMenu (Some 0%nat)
                (AutoRefreshSettings {| edits := [0]; result := Accepted |});
              TypeUrl "http://localhost"; AddNewPage (0, 0);
              GripDrag 1 {| corner := TopLeftCorner |}
                {| buttons := RightButton; globalPos := (1, 1) |};
              Elapse 60000] in
  let it := snd (set_refresh_interval 5
                   (setPos (3, 4) (WebPageItem_init "https://example.com"))) in
  let self := snd (run es1 BrowserCanvasApp_init) in
  let self' := snd (run es2 self) in
  (0%nat ∉ scene self') /\
  current_page self' = Some 0%nat /\
  current_page self = Some 0%nat /\
  exists it', heap self' !! 0%nat = Some it' /\ same_settings it it'.
Proof.
  intros es1 es2 it self self'.
  destruct (closed_page_out_of_reach es1 es2 0 it) as [Hout Hcur].
  - reflexivity.
  - simpl. apply not_elem_of_nil.
  - split; [exact Hout|]. split; [reflexivity|].
    apply Hcur. reflexivity.
Defined.
